(** * physics_knowledge_db: the PhysicsKnowledgeBase class, embedded in Rocq

    The class of [physics_knowledge_db.py] keeps two pieces of mutable
    state: the ChromaDB collection (entries keyed by chunk id) and the
    in-process dictionary [_paper_metadata].  Its methods are embedded as
    functions that pass that state explicitly.  Everything the class gets
    from outside (ArXiv, the PDF download, GitHub, the embedding model and
    the failure behaviour of the store) is collected in a [World] record;
    an exception that leaves a method is the outcome [Raised]. *)

From Stdlib Require Import ZArith Ascii Lia.
From stdpp Require Import base list strings gmap fin_maps pretty sorting.

(** ** Python strings

    A [str] is modelled as a [string] whose characters are the code points
    below 256. *)
Module Py.

(** [str.isspace] on one character: TAB..CR, FS..US, SPACE, NEL, NBSP. *)
Definition isspace (c : ascii) : bool :=
  let n := nat_of_ascii c in
  ((9 <=? n) && (n <=? 13)) || ((28 <=? n) && (n <=? 32))
  || (n =? 133) || (n =? 160).

(** Truthiness of a [str]: the empty string is false. *)
Definition truthy (s : string) : bool :=
  match s with EmptyString => false | String _ _ => true end.

(** [s.split()]: the maximal runs of non-whitespace characters, in order.
    [cur] is the run being read. *)
Fixpoint split_from (cur : string) (s : string) : list string :=
  match s with
  | EmptyString => if truthy cur then [cur] else []
  | String c s' =>
      if isspace c
      then (if truthy cur then cur :: split_from "" s' else split_from "" s')
      else split_from (cur +:+ String c "") s'
  end.

Definition split (s : string) : list string := split_from "" s.

(** [s.lstrip()] and [s.rstrip()], and [s.strip()] as their composition. *)
Fixpoint lstrip (s : string) : string :=
  match s with
  | EmptyString => ""
  | String c s' => if isspace c then lstrip s' else s
  end.

Fixpoint rstrip (s : string) : string :=
  match s with
  | EmptyString => ""
  | String c s' =>
      match rstrip s' with
      | EmptyString => if isspace c then "" else String c ""
      | r => String c r
      end
  end.

Definition strip (s : string) : string := lstrip (rstrip s).

(** [sep.join(ws)]. *)
Fixpoint join (sep : string) (ws : list string) : string :=
  match ws with
  | [] => ""
  | [w] => w
  | w :: ws' => w +:+ sep +:+ join sep ws'
  end.

(** [range(0, stop, step)] for a list length [stop]: [None] is the
    [ValueError] of a zero step; a negative step gives the empty range. *)
Definition range0 (stop : nat) (step : Z) : option (list nat) :=
  if (step =? 0)%Z then None
  else if (step <? 0)%Z then Some []
  else let k := Z.to_nat step in
       Some (map (fun j => j * k) (seq 0 ((stop + k - 1) / k))).

(** The slice [l[i:i+n]] for [i, n >= 0]. *)
Definition slice {A : Type} (l : list A) (i n : nat) : list A :=
  take n (drop i l).

End Py.

(** ** The chunker of [read_paper] *)

Record Chunk := { text : string; page_number : Z }.

(** Lines 151-159: one step of the loop over [range(0, len(words),
    chunk_size)], appending to [chunks]. *)
Definition chunk_step (words : list string) (chunk_size : nat) (page : Z)
    (chunks : list Chunk) (i : nat) : list Chunk :=
  let chunk_words := Py.slice words i chunk_size in
  let chunk_text := Py.join " " chunk_words in
  if Py.truthy (Py.strip chunk_text)
  then chunks ++ [{| text := chunk_text; page_number := page |}]
  else chunks.

(** Lines 147-159: the chunks of one page.  [None] is the exception that
    [range] raises for [chunk_size = 0]. *)
Definition chunk_page (page_text : string) (page : Z) (chunk_size : Z)
    : option (list Chunk) :=
  if Py.truthy (Py.strip page_text) then
    let words := Py.split page_text in
    match Py.range0 (length words) chunk_size with
    | None => None
    | Some starts =>
        Some (fold_left (chunk_step words (Z.to_nat chunk_size) page) starts [])
    end
  else Some [].

(** Lines 143-159: the loop over the pages.  The first exception ends the
    loop and the chunks collected so far are what [read_paper] returns. *)
Fixpoint read_pages (pages : list string) (page_num : nat) (chunk_size : Z)
    (chunks : list Chunk) : list Chunk :=
  match pages with
  | [] => chunks
  | page_text :: rest =>
      match chunk_page page_text (Z.of_nat page_num + 1) chunk_size with
      | None => chunks
      | Some cs => read_pages rest (S page_num) chunk_size (chunks ++ cs)
      end
  end.

(** ** Values, records and the outside world *)

(** A Python [float], carried by its 64-bit pattern: the class never
    computes on one. *)
Inductive pyfloat : Type := Float64 (bits : N).

(** The values the class puts into ChromaDB metadata. *)
Inductive pyval : Type := PStr (s : string) | PInt (z : Z).

Global Instance pyval_eq_dec : EqDecision pyval.
Proof. solve_decision. Defined.

(** One record of the collection, stored under its chunk id. *)
Record Entry := {
  document : string;
  embedding : list pyfloat;
  metadata : gmap string pyval
}.

(** What [arxiv.Client().results] yields for one paper. *)
Record ArxivResult := {
  ar_title : string;
  ar_pdf_url : string;
  ar_summary : string;
  ar_short_id : string
}.

(** The iteration over the ArXiv results: the papers it yields, and whether
    it then ends with an exception. *)
Record ArxivOutcome := { yielded : list ArxivResult; failed : bool }.

(** The dictionaries [search_arxiv] returns, and the ones it caches. *)
Record Paper := {
  p_title : string;
  p_pdf_url : string;
  p_summary : string;
  paper_id : string;
  p_repo_url : option string
}.

Record CachedPaper := {
  c_title : string;
  c_url : string;
  c_summary : string;
  c_repo_url : option string
}.

Record GithubContext := { readme : string; requirements : string }.

(** The three parallel lists handed to [collection.upsert]. *)
Record Batch := {
  ids : list string;
  documents : list string;
  metadatas : list (gmap string pyval)
}.

(** The answer of [collection.query]: one row per query embedding. *)
Record QueryResponse := {
  q_documents : list (list string);
  q_metadatas : list (list (gmap string pyval));
  q_distances : list (list pyfloat)
}.

Record QueryResult := {
  r_text : string;
  r_source_id : pyval;
  r_title : pyval;
  r_page : pyval;
  r_url : pyval;
  r_distance : pyfloat
}.

Record Reference := { ref_title : pyval; ref_url : pyval }.

(** The state of a [PhysicsKnowledgeBase] object. *)
Record KB := {
  collection : gmap string Entry;
  _paper_metadata : gmap string CachedPaper
}.

(** The collaborators.
    - [arxiv_results query max_results]: the ArXiv client;
    - [github_match summary]: [GITHUB_PATTERN.search(summary)], with the
      matched text;
    - [pdf_pages url]: the page texts [read_paper] gets out of the PDF at
      [url] before anything fails (none when the download fails);
    - [github_fetch url]: the dictionary the HTTP requests of
      [fetch_github_context] lead to;
    - [embed], [encode_raises]: the embedding model, and whether a call of
      [encode] on a list of texts raises;
    - [upsert_raises], [query_raises], [get_raises]: whether the ChromaDB
      call raises; [nearest] is the store's nearest-neighbour ranking, as
      chunk ids with their distances. *)
Record World := {
  arxiv_results : string -> Z -> ArxivOutcome;
  github_match : string -> option string;
  pdf_pages : string -> list string;
  github_fetch : string -> GithubContext;
  embed : string -> list pyfloat;
  encode_raises : list string -> bool;
  upsert_raises : list string -> bool;
  query_raises : list (list pyfloat) -> Z -> bool;
  nearest : list pyfloat -> Z -> gmap string Entry -> list (string * pyfloat);
  get_raises : string -> bool
}.

(** A call either returns or lets an exception escape. *)
Inductive outcome (A : Type) : Type :=
  | Returned (a : A)
  | Raised.
Arguments Returned {A} a.
Arguments Raised {A}.

(** ** The collaborators' calls *)

(** [self.embedding_model.encode(texts).tolist()]: one vector per text. *)
Definition encode (w : World) (texts : list string)
    : option (list (list pyfloat)) :=
  if encode_raises w texts then None else Some (map (embed w) texts).

Definition entries (b : Batch) (embeddings : list (list pyfloat))
    : list (string * Entry) :=
  zip (ids b)
      (zip_with (fun d em => {| document := d; embedding := em.1; metadata := em.2 |})
                (documents b) (zip embeddings (metadatas b))).

Definition put (c : gmap string Entry) (ie : string * Entry) : gmap string Entry :=
  <[ie.1 := ie.2]> c.

(** [collection.upsert(ids, documents, embeddings, metadatas)]: insert or
    overwrite by id; a call that raises leaves the collection as it was. *)
Definition upsert (w : World) (b : Batch) (embeddings : list (list pyfloat))
    (c : gmap string Entry) : option (gmap string Entry) :=
  if upsert_raises w (ids b) then None
  else Some (fold_left put (entries b embeddings) c).

Definition hits (w : World) (qe : list pyfloat) (n_results : Z)
    (c : gmap string Entry) : list (Entry * pyfloat) :=
  omap (fun '(i, d) => match c !! i with Some e => Some (e, d) | None => None end)
       (nearest w qe n_results c).

(** [collection.query(query_embeddings, n_results, include=[...])]: the
    ranked entries of the collection, row by row. *)
Definition collection_query (w : World) (query_embeddings : list (list pyfloat))
    (n_results : Z) (c : gmap string Entry) : option QueryResponse :=
  if query_raises w query_embeddings n_results then None
  else
    let rows := map (fun qe => hits w qe n_results c) query_embeddings in
    Some {| q_documents := map (map (fun h => document h.1)) rows;
            q_metadatas := map (map (fun h => metadata h.1)) rows;
            q_distances := map (map snd) rows |}.

(** [collection.get(where={key: v}, limit=..., include=["metadatas"])]:
    the metadata of the first [limit] matching entries, in the store's
    own order. *)
Definition collection_get (w : World) (key : string) (v : string) (limit : nat)
    (c : gmap string Entry) : option (list (gmap string pyval)) :=
  if get_raises w v then None
  else Some (take limit
               (filter (fun m : gmap string pyval => m !! key = Some (PStr v))
                       (map (fun ie => metadata ie.2) (map_to_list c)))).

(** [collection.count()]. *)
Definition count (c : gmap string Entry) : nat := size c.

(** ** [search_arxiv] *)

(** Lines 81-101: the body of the loop over the results. *)
Definition search_step (w : World)
    (acc : list Paper * gmap string CachedPaper) (paper : ArxivResult)
    : list Paper * gmap string CachedPaper :=
  let repo_url := github_match w (ar_summary paper) in
  let paper_metadata :=
    {| p_title := ar_title paper; p_pdf_url := ar_pdf_url paper;
       p_summary := ar_summary paper; paper_id := ar_short_id paper;
       p_repo_url := repo_url |} in
  (acc.1 ++ [paper_metadata],
   <[ar_short_id paper :=
       {| c_title := ar_title paper; c_url := ar_pdf_url paper;
          c_summary := ar_summary paper; c_repo_url := repo_url |}]> acc.2).

(** The [except] clause returns [results] as it is, so only what was
    yielded matters. *)
Definition search_arxiv (w : World) (query : string) (max_results : Z) (kb : KB)
    : list Paper * KB :=
  let r := fold_left (search_step w) (yielded (arxiv_results w query max_results))
                     ([], _paper_metadata kb) in
  (r.1, {| collection := collection kb; _paper_metadata := r.2 |}).

(** ** [read_paper] and [fetch_github_context] *)

Definition read_paper (w : World) (pdf_url : string) (chunk_size : Z) : list Chunk :=
  read_pages (pdf_pages w pdf_url) 0 chunk_size [].

Definition fetch_github_context (w : World) (repo_url : string) : GithubContext :=
  if Py.truthy repo_url then github_fetch w repo_url
  else {| readme := ""; requirements := "" |}.

(** ** [crawl_physics_knowledge] *)

Definition paper_meta (paper_id title : string) (page : Z) (pdf_url : string)
    : gmap string pyval :=
  <["source_id" := PStr paper_id]> (<["title" := PStr title]>
  (<["page" := PInt page]> (<["url" := PStr pdf_url]>
  (<["type" := PStr "paper_content"]> ∅)))).

Definition github_meta (paper_id title repo_url : string) : gmap string pyval :=
  <["source_id" := PStr paper_id]> (<["title" := PStr title]>
  (<["page" := PInt 0]> (<["url" := PStr repo_url]>
  (<["type" := PStr "implementation_details"]> ∅)))).

(** Lines 279-295: the batch of the paper's own chunks. *)
Definition paper_batch (paper : Paper) (chunks : list Chunk) : Batch :=
  {| ids := imap (fun chunk_idx _ => paper_id paper +:+ "_chunk_" +:+ pretty chunk_idx)
                 chunks;
     documents := map text chunks;
     metadatas := map (fun chunk => paper_meta (paper_id paper) (p_title paper)
                                      (page_number chunk) (p_pdf_url paper))
                      chunks |}.

(** Lines 330-343: one step of the loop over the README's windows. *)
Definition readme_step (paper_id title repo_url : string)
    (readme_words : list string) (chunk_size : nat) (b : Batch) (i : nat) : Batch :=
  let chunk_words := Py.slice readme_words i chunk_size in
  let chunk_text := Py.join " " chunk_words in
  if Py.truthy (Py.strip chunk_text)
  then {| ids := ids b ++ [paper_id +:+ "_github_readme_" +:+ pretty (i / chunk_size)];
          documents := documents b ++ [chunk_text];
          metadatas := metadatas b
                       ++ [github_meta paper_id (title +:+ " - GitHub README") repo_url] |}
  else b.

(** Lines 325-343. *)
Definition readme_batch (paper_id title repo_url : string) (ctx : GithubContext)
    (b : Batch) : Batch :=
  if Py.truthy (readme ctx) then
    let readme_words := Py.split (readme ctx) in
    let chunk_size := 500 in
    fold_left (readme_step paper_id title repo_url readme_words chunk_size)
              (default [] (Py.range0 (length readme_words) (Z.of_nat chunk_size))) b
  else b.

(** Lines 346-355. *)
Definition requirements_batch (paper_id title repo_url : string)
    (ctx : GithubContext) (b : Batch) : Batch :=
  if Py.truthy (requirements ctx) then
    {| ids := ids b ++ [paper_id +:+ "_github_requirements"];
       documents := documents b
                    ++ ["Dependencies and requirements: " +:+ requirements ctx];
       metadatas := metadatas b
                    ++ [github_meta paper_id (title +:+ " - Dependencies") repo_url] |}
  else b.

(** Lines 320-355: the batch of the repository's texts. *)
Definition github_batch (paper_id title repo_url : string) (ctx : GithubContext)
    : Batch :=
  requirements_batch paper_id title repo_url ctx
    (readme_batch paper_id title repo_url ctx
       {| ids := []; documents := []; metadatas := [] |}).

(** Lines 297-313, and again 358-373: embed the batch, then upsert it
    inside [try]; only the upsert is covered by the [except] clause. *)
Definition store_batch (w : World) (b : Batch) (total_chunks : nat) (kb : KB)
    : outcome nat * KB :=
  match encode w (documents b) with
  | None => (Raised, kb)
  | Some embeddings =>
      match upsert w b embeddings (collection kb) with
      | Some c' =>
          (Returned (total_chunks + length (documents b)),
           {| collection := c'; _paper_metadata := _paper_metadata kb |})
      | None => (Returned total_chunks, kb)
      end
  end.

(** Truthiness of [paper.get("repo_url")]. *)
Definition repo_of (paper : Paper) : option string :=
  match p_repo_url paper with
  | Some u => if Py.truthy u then Some u else None
  | None => None
  end.

(** Lines 263-373: the body of the loop over the papers. *)
Definition ingest_paper (w : World) (paper : Paper) (total_chunks : nat) (kb : KB)
    : outcome nat * KB :=
  match read_paper w (p_pdf_url paper) 500 with
  | [] => (Returned total_chunks, kb)
  | chunks =>
      match store_batch w (paper_batch paper chunks) total_chunks kb with
      | (Raised, kb') => (Raised, kb')
      | (Returned total_chunks', kb') =>
          match repo_of paper with
          | None => (Returned total_chunks', kb')
          | Some repo_url =>
              let github_context := fetch_github_context w repo_url in
              let gb := github_batch (paper_id paper) (p_title paper) repo_url
                                     github_context in
              match documents gb with
              | [] => (Returned total_chunks', kb')
              | _ => store_batch w gb total_chunks' kb'
              end
          end
      end
  end.

Fixpoint crawl_loop (w : World) (papers : list Paper) (total_chunks : nat) (kb : KB)
    : outcome nat * KB :=
  match papers with
  | [] => (Returned total_chunks, kb)
  | paper :: rest =>
      match ingest_paper w paper total_chunks kb with
      | (Returned total_chunks', kb') => crawl_loop w rest total_chunks' kb'
      | (Raised, kb') => (Raised, kb')
      end
  end.

Definition crawl_physics_knowledge (w : World) (topic : string) (max_papers : Z)
    (kb : KB) : outcome nat * KB :=
  let sr := search_arxiv w topic max_papers kb in
  match sr.1 with
  | [] => (Returned 0, sr.2)
  | papers => crawl_loop w papers 0 sr.2
  end.

(** ** [query_physics_db] *)

(** Lines 413-420. *)
Definition format_hit (h : string * gmap string pyval * pyfloat) : QueryResult :=
  let '(doc, meta, dist) := h in
  {| r_text := doc;
     r_source_id := default (PStr "Unknown") (meta !! "source_id");
     r_title := default (PStr "Unknown") (meta !! "title");
     r_page := default (PInt 0) (meta !! "page");
     r_url := default (PStr "") (meta !! "url");
     r_distance := dist |}.

(** The whole body is inside [try]; every failure returns [results]. *)
Definition query_physics_db (w : World) (question : string) (n_results : Z)
    (kb : KB) : list QueryResult :=
  match encode w [question] with
  | None => []
  | Some question_embedding =>
      match collection_query w question_embedding n_results (collection kb) with
      | None => []
      | Some query_results =>
          match q_documents query_results with
          | [] => []
          | documents :: _ =>
              match q_metadatas query_results, q_distances query_results with
              | metadatas :: _, distances :: _ =>
                  map format_hit (zip (zip documents metadatas) distances)
              | _, _ => []
              end
          end
      end
  end.

(** ** [get_reference] *)

Definition get_reference (w : World) (paper_id : string) (kb : KB)
    : option Reference :=
  match _paper_metadata kb !! paper_id with
  | Some cached =>
      Some {| ref_title := PStr (c_title cached); ref_url := PStr (c_url cached) |}
  | None =>
      match collection_get w "source_id" paper_id 1 (collection kb) with
      | Some (meta :: _) =>
          Some {| ref_title := default (PStr "Unknown") (meta !! "title");
                  ref_url := default (PStr "") (meta !! "url") |}
      | _ => None
      end
  end.

(** The entries of the collection whose [source_id] is [sid]. *)
Definition entries_of (sid : string) (c : gmap string Entry) : gmap string Entry :=
  filter (fun ie : string * Entry => metadata ie.2 !! "source_id" = Some (PStr sid)) c.

(** ** Auxiliary notions used in the statements *)

(** Whitespace-only (or empty) strings, and strings free of whitespace. *)
Fixpoint allspace (s : string) : bool :=
  match s with
  | EmptyString => true
  | String c s' => Py.isspace c && allspace s'
  end.

Fixpoint nospace (s : string) : bool :=
  match s with
  | EmptyString => true
  | String c s' => negb (Py.isspace c) && nospace s'
  end.

Definition is_word (w : string) : Prop := Py.truthy w = true ∧ nospace w = true.

(** A chunk made of one window of words. *)
Definition mk_chunk (page : Z) (ws : list string) : Chunk :=
  {| text := Py.join " " ws; page_number := page |}.

(** The windows the loops over [range(0, len(words), k)] cut out of
    [words]. *)
Definition windows (words : list string) (k : nat) : list (list string) :=
  map (fun j => Py.slice words (j * k) k) (seq 0 ((length words + k - 1) / k)).

(** [len(chunk.text.split())]. *)
Definition word_count (c : Chunk) : nat := length (Py.split (text c)).

(** A page of 1200 words. *)
Definition page1200 : string := Py.join " " (replicate 1200 "w").


(** The repository batch as the specification words it: every artifact is
    cut by the chunker at 500 words, and entry [index] of an artifact gets
    the id ["{source_id}_github_{artifact}_{index}"]. *)
Definition spec_artifact (source_id artifact content : string)
    : list (string * string) :=
  imap (fun index chunk =>
          (source_id +:+ "_github_" +:+ artifact +:+ "_" +:+ pretty index, text chunk))
       (default [] (chunk_page content 0 500)).

Definition spec_github_entries (source_id : string) (ctx : GithubContext)
    : list (string * string) :=
  spec_artifact source_id "readme" (readme ctx)
  ++ spec_artifact source_id "requirements" (requirements ctx).

(** The metadata [m] names [sid] as its source. *)
Definition has_source (sid : string) (m : gmap string pyval) : Prop :=
  m !! "source_id" = Some (PStr sid).

(** No entry of the collection names [sid] as its source. *)
Definition no_source (sid : string) (c : gmap string Entry) : Prop :=
  ∀ i e, c !! i = Some e → ¬ has_source sid (metadata e).

(** The dictionary [search_arxiv] returns for a result, and the one it
    caches. *)
Definition paper_of (w : World) (paper : ArxivResult) : Paper :=
  {| p_title := ar_title paper; p_pdf_url := ar_pdf_url paper;
     p_summary := ar_summary paper; paper_id := ar_short_id paper;
     p_repo_url := github_match w (ar_summary paper) |}.

Definition cached_of (w : World) (paper : ArxivResult) : CachedPaper :=
  {| c_title := ar_title paper; c_url := ar_pdf_url paper;
     c_summary := ar_summary paper;
     c_repo_url := github_match w (ar_summary paper) |}.

Definition cache_step (w : World) (m : gmap string CachedPaper) (q : ArxivResult)
    : gmap string CachedPaper :=
  <[ar_short_id q := cached_of w q]> m.

(** A step of the crawl never reads the state: it has one outcome, and it
    lays one map of written entries and one map of cached papers over
    whatever the state held. *)
Definition framed (f : KB -> outcome nat * KB) : Prop :=
  ∃ (o : outcome nat) (Wc : gmap string Entry) (Wm : gmap string CachedPaper),
    ∀ kb, f kb = (o, {| collection := Wc ∪ collection kb;
                        _paper_metadata := Wm ∪ _paper_metadata kb |}).

(** ** Concrete worlds for the examples *)

(** A world given by what ArXiv yields, the pages of every PDF, the
    repository texts and the calls that raise; the store ranks every entry
    at distance zero. *)
Definition world_of (found : ArxivOutcome) (repo : option string)
    (pages : list string) (ctx : GithubContext)
    (encode_fails upsert_fails query_fails get_fails : bool) : World :=
  {| arxiv_results := fun _ _ => found;
     github_match := fun _ => repo;
     pdf_pages := fun _ => pages;
     github_fetch := fun _ => ctx;
     embed := fun _ => [];
     encode_raises := fun _ => encode_fails;
     upsert_raises := fun _ => upsert_fails;
     query_raises := fun _ _ => query_fails;
     nearest := fun _ _ c => map (fun ie => (ie.1, Float64 0)) (map_to_list c);
     get_raises := fun _ => get_fails |}.

Definition no_context : GithubContext := {| readme := ""; requirements := "" |}.

Definition nothing_found : ArxivOutcome := {| yielded := []; failed := false |}.

Definition discovery_down : ArxivOutcome := {| yielded := []; failed := true |}.

Definition one_paper : ArxivOutcome :=
  {| yielded := [ {| ar_title := "Photometric stereo";
                     ar_pdf_url := "https://arxiv.org/pdf/2401.00001v1";
                     ar_summary := "We estimate normals.";
                     ar_short_id := "2401.00001v1" |} ];
     failed := false |}.

Definition empty_kb : KB := {| collection := ∅; _paper_metadata := ∅ |}.

(** A store holding one entry that carries no metadata. *)
Definition bare_kb : KB :=
  {| collection := {[ "x_chunk_0" := {| document := "shadows"; embedding := [];
                                        metadata := ∅ |} ]};
     _paper_metadata := ∅ |}.

(** A store holding one chunk of paper ["2401.00001v1"], and no cache. *)
Definition stored_kb : KB :=
  {| collection :=
       {[ "2401.00001v1_chunk_0" :=
            {| document := "shadows"; embedding := [];
               metadata := paper_meta "2401.00001v1" "Photometric stereo" 1
                                      "https://arxiv.org/pdf/2401.00001v1" |} ]};
     _paper_metadata := ∅ |}.

(** The same paper, known to the cache only. *)
Definition cached_kb : KB :=
  {| collection := ∅;
     _paper_metadata :=
       {[ "2401.00001v1" := {| c_title := "Photometric stereo";
                               c_url := "https://arxiv.org/pdf/2401.00001v1";
                               c_summary := ""; c_repo_url := None |} ]} |}.

(** ** Further notions, for the properties beyond the claims *)

(** The chunks of page [page_num] (counted from 0) of a document, for
    windows of [k] words. *)
Definition page_chunks (k : nat) (page_num : nat) (page_text : string) : list Chunk :=
  map (mk_chunk (Z.of_nat page_num + 1)) (windows (Py.split page_text) k).

(** A world whose only PDF has three pages, the second one blank. *)
Definition three_pages : list string := ["a b c"; "  "; "d e"].

Definition pdf_world : World :=
  world_of one_paper None three_pages no_context false false false false.

(** What one batch adds to the count the crawl returns: its length, unless
    its upsert raises. *)
Definition batch_stored (w : World) (ids : list string) (n : nat) : nat :=
  if upsert_raises w ids then 0 else n.

(** What one paper adds to the count, when the embedding model does not
    raise: nothing for a paper without chunks; otherwise its chunks and,
    for a paper with a repository, one entry per started block of 500
    README words plus one for a non-empty manifest. *)
Definition paper_stored (w : World) (paper : Paper) : nat :=
  match read_paper w (p_pdf_url paper) 500 with
  | [] => 0
  | chunks =>
      batch_stored w (ids (paper_batch paper chunks)) (length chunks)
      + match repo_of paper with
        | None => 0
        | Some repo_url =>
            let ctx := fetch_github_context w repo_url in
            batch_stored w
              (ids (github_batch (paper_id paper) (p_title paper) repo_url ctx))
              ((length (Py.split (readme ctx)) + 499) / 500
               + (if Py.truthy (requirements ctx) then 1 else 0))
        end
  end.

(** A world whose paper has a PDF of three pages and a repository with a
    README and a manifest. *)
Definition repo_world : World :=
  world_of one_paper (Some "https://github.com/a/b") three_pages
           {| readme := "usage notes"; requirements := "numpy torch" |}
           false false false false.

(** The same, with an embedding model that raises. *)
Definition no_embedding_world : World :=
  world_of one_paper (Some "https://github.com/a/b") three_pages
           {| readme := "usage notes"; requirements := "numpy torch" |}
           true false false false.

(** The same, with a store whose upserts raise. *)
Definition no_upsert_world : World :=
  world_of one_paper (Some "https://github.com/a/b") three_pages
           {| readme := "usage notes"; requirements := "numpy torch" |}
           false true false false.

(** The three kinds of text the crawl appends to a paper id to form a
    chunk id. *)
Inductive id_suffix : Type :=
  | ChunkSuffix (index : nat)
  | ReadmeSuffix (index : nat)
  | RequirementsSuffix.

Definition suffix_text (s : id_suffix) : string :=
  match s with
  | ChunkSuffix index => "_chunk_" +:+ pretty index
  | ReadmeSuffix index => "_github_readme_" +:+ pretty index
  | RequirementsSuffix => "_github_requirements"
  end.

(** The decimal digits. *)
Definition is_digit (c : ascii) : bool :=
  let n := nat_of_ascii c in (48 <=? n) && (n <=? 57).

(** The characters of a string, last one first. *)
Definition rchars (s : string) : list ascii :=
  reverse (String.list_ascii_of_string s).

(** Lines 32-55: a new [PhysicsKnowledgeBase] over a database path opens
    the collection persisted there (empty for a fresh path) and starts
    with an empty cache. *)
Definition __init__ (persisted : gmap string Entry) : KB :=
  {| collection := persisted; _paper_metadata := ∅ |}.

(** All the ids the crawl generates for one paper. *)
Definition paper_ids (paper : Paper) (chunks : list Chunk) (repo_url : string)
    (ctx : GithubContext) : list string :=
  ids (paper_batch paper chunks)
  ++ ids (github_batch (paper_id paper) (p_title paper) repo_url ctx).

(** The metadata the crawl writes for a result [q]: that of a chunk of its
    PDF, with a page number from 1 on, or that of its README or of its
    manifest, with page 0 and the repository url. *)
Definition crawl_meta (w : World) (q : ArxivResult) (m : gmap string pyval) : Prop :=
  (∃ page, (1 ≤ page)%Z
           ∧ m = paper_meta (ar_short_id q) (ar_title q) page (ar_pdf_url q))
  ∨ (∃ repo_url, repo_of (paper_of w q) = Some repo_url
       ∧ (m = github_meta (ar_short_id q) (ar_title q +:+ " - GitHub README") repo_url
          ∨ m = github_meta (ar_short_id q) (ar_title q +:+ " - Dependencies") repo_url)).

(** A batch all of whose entries belong to the paper [pid]: the ids are
    [pid] followed by a suffix, and the metadata name [pid] as source. *)
Definition owned_batch (pid : string) (b : Batch) : Prop :=
  Forall (fun i => ∃ s, i = pid +:+ suffix_text s) (ids b)
  ∧ Forall (has_source pid) (metadatas b).

(** The entry under chunk id [k] names [sid] as its source. *)
Definition key_has_source (sid k : string) (c : gmap string Entry) : Prop :=
  ∃ e, c !! k = Some e ∧ has_source sid (metadata e).

(** The result that ArXiv yields in the example worlds. *)
Definition the_paper : ArxivResult :=
  {| ar_title := "Photometric stereo";
     ar_pdf_url := "https://arxiv.org/pdf/2401.00001v1";
     ar_summary := "We estimate normals.";
     ar_short_id := "2401.00001v1" |}.

(** Every chunk id of [c] is one [c0] had, or one of a paper in [P]. *)
Definition only_keys (c0 : gmap string Entry) (P : list string)
    (c : gmap string Entry) : Prop :=
  ∀ k, is_Some (c !! k) →
       is_Some (c0 !! k) ∨ ∃ pid s, pid ∈ P ∧ k = pid +:+ suffix_text s.

(** The three lists of a batch have one length. *)
Definition aligned (b : Batch) : Prop :=
  length (ids b) = length (documents b)
  ∧ length (metadatas b) = length (documents b).

(** ** [fetch_github_context], request by request

    In the [World] above [github_fetch] stands for the dictionary the
    method ends up with.  Here the method itself is embedded, over a
    function that answers every [requests.get]. *)
Module Http.

(** What [requests.get(url, timeout=...)] does: it returns a response, or
    raises a [requests.RequestException], or raises something else. *)
Inductive outcome : Type :=
  | Response (status_code : Z) (text : string)
  | RequestException
  | OtherException.

(** [s.replace(old, new)] for a non-empty [old]: every occurrence, from the
    left, without overlap.  [skip] counts the characters of an occurrence
    still to be dropped. *)
Fixpoint replace_go (old new : string) (skip : nat) (s : string) : string :=
  match s with
  | EmptyString => ""
  | String c s' =>
      match skip with
      | S k => replace_go old new k s'
      | 0 =>
          if String.prefix old s
          then new +:+ replace_go old new (String.length old - 1) s'
          else String c (replace_go old new 0 s')
      end
  end.

Definition replace (old new s : string) : string := replace_go old new 0 s.

(** [s.split(sep)] for a separator of one character; [cur] is the part
    being read. *)
Fixpoint split_on_from (sep : ascii) (cur : string) (s : string) : list string :=
  match s with
  | EmptyString => [cur]
  | String c s' =>
      if Ascii.eqb c sep then cur :: split_on_from sep "" s'
      else split_on_from sep (cur +:+ String c "") s'
  end.

Definition split_on (sep : ascii) (s : string) : list string :=
  split_on_from sep "" s.

(** Lines 214-222: the manifest of a branch whose README was found. *)
Definition fetch_requirements (http_get : string -> outcome) (raw_base branch : string)
    : string :=
  match http_get (raw_base +:+ "/" +:+ branch +:+ "/requirements.txt") with
  | Response status_code text => if (status_code =? 200)%Z then text else ""
  | _ => ""
  end.

(** Lines 205-226: the loop over the branches.  A [RequestException] moves
    on to the next branch; any other exception ends the method, in the
    [except] clause of line 231. *)
Fixpoint fetch_branches (http_get : string -> outcome) (raw_base : string)
    (branches : list string) : GithubContext :=
  match branches with
  | [] => {| readme := ""; requirements := "" |}
  | branch :: rest =>
      match http_get (raw_base +:+ "/" +:+ branch +:+ "/README.md") with
      | Response status_code text =>
          if (status_code =? 200)%Z
          then {| readme := text;
                  requirements := fetch_requirements http_get raw_base branch |}
          else fetch_branches http_get raw_base rest
      | RequestException => fetch_branches http_get raw_base rest
      | OtherException => {| readme := ""; requirements := "" |}
      end
  end.

(** Lines 187-234. *)
Definition fetch_github_context (http_get : string -> outcome) (repo_url : string)
    : GithubContext :=
  if Py.truthy repo_url then
    match split_on "/" (replace "https://github.com/" "" repo_url) with
    | user :: repo :: _ =>
        let raw_base := "https://raw.githubusercontent.com/" +:+ user +:+ "/" +:+ repo in
        fetch_branches http_get raw_base ["main"; "master"]
    | _ => {| readme := ""; requirements := "" |}
    end
  else {| readme := ""; requirements := "" |}.

End Http.

(** The string has no ["/"]. *)
Fixpoint no_slash (s : string) : bool :=
  match s with
  | EmptyString => true
  | String c s' => negb (Ascii.eqb c "/") && no_slash s'
  end.

(** The number of ["/"] in a string. *)
Fixpoint slashes (s : string) : nat :=
  match s with
  | EmptyString => 0
  | String c s' => (if Ascii.eqb c "/" then 1 else 0) + slashes s'
  end.

(** A GitHub that serves a README on [master] only, and a manifest. *)
Definition master_only (url : string) : Http.outcome :=
  if String.eqb url "https://raw.githubusercontent.com/a/b/main/README.md"
  then Http.Response 404 "Not Found"
  else if String.eqb url "https://raw.githubusercontent.com/a/b/master/README.md"
  then Http.Response 200 "usage notes"
  else if String.eqb url "https://raw.githubusercontent.com/a/b/master/requirements.txt"
  then Http.Response 200 "numpy torch"
  else Http.RequestException.

(** The world of [repo_world], its GitHub being what [http_get] answers. *)
Definition http_world (http_get : string -> Http.outcome) : World :=
  {| arxiv_results := fun _ _ => one_paper;
     github_match := fun _ => Some "https://github.com/a/b";
     pdf_pages := fun _ => three_pages;
     github_fetch := Http.fetch_github_context http_get;
     embed := fun _ => [];
     encode_raises := fun _ => false;
     upsert_raises := fun _ => false;
     query_raises := fun _ _ => false;
     nearest := fun _ _ c => map (fun ie => (ie.1, Float64 0)) (map_to_list c);
     get_raises := fun _ => false |}.

(** * Proofs *)

(** ** Python strings *)

Section strings.

Lemma str_app_cons c (s t : string) : String c s +:+ t = String c (s +:+ t).
Proof. reflexivity. Qed.

Lemma str_app_nil_l (s : string) : "" +:+ s = s.
Proof. reflexivity. Qed.

Lemma str_app_nil_r (s : string) : s +:+ "" = s.
Proof. induction s as [|c s IH]; [done|]. by rewrite str_app_cons, IH. Qed.

Lemma str_app_assoc (a b c : string) : (a +:+ b) +:+ c = a +:+ (b +:+ c).
Proof. induction a as [|x a IH]; [done|]. by rewrite !str_app_cons, IH. Qed.

Lemma nospace_app a b : nospace a = true → nospace b = true → nospace (a +:+ b) = true.
Proof.
  induction a as [|x a IH]; [done|]. rewrite str_app_cons. simpl.
  intros [Hx ?]%andb_prop ?. rewrite IH; [|done..]. by rewrite Hx.
Qed.

Lemma split_from_words s : ∀ cur, nospace cur = true → Forall is_word (Py.split_from cur s).
Proof.
  induction s as [|c s IH]; intros cur Hcur; simpl.
  - destruct (Py.truthy cur) eqn:E; [|constructor]. repeat constructor; done.
  - destruct (Py.isspace c) eqn:Ec.
    + destruct (Py.truthy cur) eqn:E; [constructor; [done|]|]; by apply IH.
    + apply IH. apply nospace_app; [done|]. simpl. by rewrite Ec.
Qed.

Lemma split_words s : Forall is_word (Py.split s).
Proof. by apply split_from_words. Qed.

Lemma split_from_nospace w : ∀ cur rest, nospace w = true →
  Py.split_from cur (w +:+ rest) = Py.split_from (cur +:+ w) rest.
Proof.
  induction w as [|c w IH]; intros cur rest Hw.
  - by rewrite str_app_nil_r.
  - simpl in Hw. apply andb_prop in Hw as [Hc Hw]. rewrite str_app_cons. simpl.
    destruct (Py.isspace c); [done|]. rewrite IH; [|done].
    by rewrite str_app_assoc.
Qed.

Lemma split_join ws : Forall is_word ws → Py.split (Py.join " " ws) = ws.
Proof.
  unfold Py.split. induction 1 as [|w ws [Hw1 Hw2] Hws IH]; [done|].
  destruct ws as [|w' ws].
  - simpl. rewrite <- (str_app_nil_r w) at 1. rewrite split_from_nospace; [|done].
    rewrite str_app_nil_l. simpl. by rewrite Hw1.
  - change (Py.join " " (w :: w' :: ws)) with (w +:+ " " +:+ Py.join " " (w' :: ws)).
    rewrite split_from_nospace; [|done]. rewrite str_app_nil_l, str_app_cons, str_app_nil_l.
    cbn [Py.split_from]. change (Py.isspace " ") with true. cbv iota.
    by rewrite Hw1, IH.
Qed.

Lemma allspace_rstrip s : allspace (Py.rstrip s) = allspace s.
Proof.
  induction s as [|c s IH]; [done|]. simpl.
  destruct (Py.rstrip s) as [|a r] eqn:E.
  - rewrite <- IH. simpl. destruct (Py.isspace c) eqn:Ec; simpl; by rewrite ?Ec.
  - rewrite <- IH. done.
Qed.

Lemma lstrip_truthy s : Py.truthy (Py.lstrip s) = negb (allspace s).
Proof.
  induction s as [|c s IH]; [done|]. simpl. by destruct (Py.isspace c).
Qed.

Lemma strip_truthy s : Py.truthy (Py.strip s) = negb (allspace s).
Proof. unfold Py.strip. by rewrite lstrip_truthy, allspace_rstrip. Qed.

Lemma split_from_allspace s : allspace s = true → Py.split_from "" s = [].
Proof.
  induction s as [|c s IH]; [done|]. simpl. intros [Hc ?]%andb_prop.
  rewrite Hc. simpl. auto.
Qed.

Lemma join_word_not_allspace w ws : is_word w → allspace (Py.join " " (w :: ws)) = false.
Proof.
  intros [H1 H2]. destruct w as [|c w]; [done|]. simpl in H2.
  apply andb_prop in H2 as [Hc _]. apply negb_true_iff in Hc.
  destruct ws; simpl; [|rewrite str_app_cons; simpl]; by rewrite Hc.
Qed.
End strings.

(** ** The chunker *)

Example split_example : Py.split "  a bc   d " = ["a"; "bc"; "d"].
Proof. reflexivity. Qed.

Example chunk_page_example :
  chunk_page " a b  c d e " 3 2
  = Some [ {| text := "a b"; page_number := 3 |};
           {| text := "c d"; page_number := 3 |};
           {| text := "e"; page_number := 3 |} ].
Proof. reflexivity. Qed.

Example chunk_page_zero_size : chunk_page "a b" 1 0 = None.
Proof. reflexivity. Qed.

Section chunker.

Lemma ceil_bounds (len k : nat) :
  1 ≤ k → len ≤ (len + k - 1) / k * k ∧ ∀ j, j < (len + k - 1) / k → j * k < len.
Proof.
  intros Hk.
  pose proof (Nat.div_mod (len + k - 1) k ltac:(lia)) as Hd.
  pose proof (Nat.mod_upper_bound (len + k - 1) k ltac:(lia)) as Hm.
  split; [nia|]. intros j Hj. nia.
Qed.

Lemma range0_pos (n : nat) (k : Z) :
  (1 ≤ k)%Z →
  Py.range0 n k = Some (map (fun j => j * Z.to_nat k) (seq 0 ((n + Z.to_nat k - 1) / Z.to_nat k))).
Proof.
  intros Hk. unfold Py.range0.
  destruct (Z.eqb_spec k 0); [lia|]. destruct (Z.ltb_spec k 0); [lia|]. done.
Qed.

Lemma concat_slices {A} (l : list A) (k n : nat) :
  concat (map (fun j => Py.slice l (j * k) k) (seq 0 n)) = take (n * k) l.
Proof.
  induction n as [|n IH]; [done|].
  rewrite seq_S, map_app, concat_app, IH. simpl. rewrite app_nil_r.
  unfold Py.slice. rewrite take_take_drop. f_equal. lia.
Qed.

Lemma concat_windows (words : list string) (k : nat) :
  1 ≤ k → concat (windows words k) = words.
Proof.
  intros Hk. unfold windows. rewrite concat_slices.
  apply take_ge. by apply ceil_bounds.
Qed.

Lemma windows_lookup (words : list string) (k j : nat) (w : list string) :
  windows words k !! j = Some w →
  w = Py.slice words (j * k) k ∧ j < (length words + k - 1) / k.
Proof.
  unfold windows. rewrite list_lookup_fmap. intros H.
  destruct (seq 0 _ !! j) as [j'|] eqn:E; [|done].
  apply lookup_seq in E as [-> ?]. simpl in H. by simplify_eq.
Qed.

Lemma length_slice {A} (l : list A) (i n : nat) :
  length (Py.slice l i n) = n `min` (length l - i).
Proof. unfold Py.slice. by rewrite length_take, length_drop. Qed.

Lemma windows_bounds (words : list string) (k : nat) :
  1 ≤ k → Forall (fun w => 1 ≤ length w ≤ k) (windows words k).
Proof.
  intros Hk. apply Forall_lookup. intros j w [-> Hj]%windows_lookup.
  rewrite length_slice. apply (ceil_bounds (length words) k Hk) in Hj. lia.
Qed.

Lemma windows_full (words : list string) (k j : nat) (w : list string) :
  1 ≤ k → S j < length (windows words k) → windows words k !! j = Some w →
  length w = k.
Proof.
  intros Hk Hj [-> _]%windows_lookup. rewrite length_slice.
  unfold windows in Hj. rewrite length_map, length_seq in Hj.
  apply (ceil_bounds (length words) k Hk) in Hj. lia.
Qed.

Lemma windows_words (words : list string) (k : nat) :
  Forall is_word words → Forall (Forall is_word) (windows words k).
Proof.
  intros H. unfold windows. apply Forall_map, Forall_forall. intros j _.
  unfold Py.slice. by apply Forall_take, Forall_drop.
Qed.

Lemma windows_nil (k : nat) : 1 ≤ k → windows [] k = [].
Proof.
  intros Hk. unfold windows. rewrite Nat.div_small; [done | simpl; lia].
Qed.

Lemma chunk_text_kept (ws : list string) :
  1 ≤ length ws → Forall is_word ws → Py.truthy (Py.strip (Py.join " " ws)) = true.
Proof.
  intros Hl Hw. destruct ws as [|w ws]; [simpl in Hl; lia|].
  rewrite strip_truthy, join_word_not_allspace; [done|]. by inversion Hw.
Qed.

Lemma fold_chunk_step (words : list string) (k : nat) (page : Z) (starts : list nat) :
  Forall (fun i => Py.truthy (Py.strip (Py.join " " (Py.slice words i k))) = true) starts →
  ∀ chunks, fold_left (chunk_step words k page) starts chunks
            = chunks ++ map (fun i => mk_chunk page (Py.slice words i k)) starts.
Proof.
  induction 1 as [|i starts Hi _ IH]; intros chunks; simpl.
  - by rewrite app_nil_r.
  - rewrite IH. unfold chunk_step at 1. rewrite Hi. by rewrite <- app_assoc.
Qed.

Lemma chunk_page_windows (page_text : string) (page max_words : Z) :
  (1 ≤ max_words)%Z →
  chunk_page page_text page max_words
  = Some (map (mk_chunk page) (windows (Py.split page_text) (Z.to_nat max_words))).
Proof.
  intros Hk. unfold chunk_page. rewrite strip_truthy.
  destruct (allspace page_text) eqn:E; simpl.
  - unfold Py.split. rewrite split_from_allspace; [|done].
    rewrite windows_nil; [done | lia].
  - rewrite range0_pos; [|done]. rewrite fold_chunk_step.
    + simpl. unfold windows. by rewrite !map_map.
    + apply Forall_map, Forall_forall. intros j Hj. simpl.
      apply elem_of_seq in Hj as [_ Hj]. simpl in Hj.
      apply ceil_bounds in Hj; [|lia].
      apply chunk_text_kept.
      * rewrite length_slice. lia.
      * unfold Py.slice. apply Forall_take, Forall_drop, split_words.
Qed.

Lemma word_counts (page : Z) (ws : list (list string)) :
  Forall (Forall is_word) ws →
  sum_list (map (fun c => length (Py.split (text c))) (map (mk_chunk page) ws))
  = length (concat ws).
Proof.
  induction 1 as [|w ws Hw _ IH]; [done|].
  simpl. rewrite split_join, IH, length_app; done.
Qed.

End chunker.

Lemma word_counts_map (page : Z) (ws : list (list string)) :
  Forall (Forall is_word) ws →
  map word_count (map (mk_chunk page) ws) = map length ws.
Proof.
  induction 1 as [|w ws Hw _ IH]; [done|].
  simpl. unfold word_count at 1. simpl. by rewrite split_join, IH.
Qed.

Lemma windows_1200 (words : list string) :
  length words = 1200 → map length (windows words 500) = [500; 500; 200].
Proof.
  intros Hlen. unfold windows. rewrite Hlen.
  replace ((1200 + 500 - 1) / 500) with 3
    by (apply (Nat.div_unique _ _ _ 199); lia).
  simpl. rewrite !length_slice, Hlen. repeat f_equal; lia.
Qed.

(** C4.  For [max_words >= 1] the chunker returns (it does not raise) the
    chunks of the windows [ws] of the page: the windows, put end to end,
    are exactly the tokens [page_text.split()]; each holds at least one
    and at most [max_words] tokens, and all but the last hold exactly
    [max_words]; each chunk is its window joined with single spaces and
    carries the page number [page].  Nothing is emitted for an empty or
    whitespace-only page, the word counts of the chunks add up to
    [len(page_text.split())], and a page of 1200 words cut at 500 gives
    three chunks of 500, 500 and 200 words with the same page number.
    The chunker is a function of its three arguments, hence
    deterministic. *)
Theorem chunker_windows (page_text : string) (page max_words : Z) :
  (1 ≤ max_words)%Z →
  ∃ (ws : list (list string)) (chunks : list Chunk),
    chunk_page page_text page max_words = Some chunks
    ∧ chunks = map (fun w => {| text := Py.join " " w; page_number := page |}) ws
    ∧ concat ws = Py.split page_text
    ∧ Forall (fun w => 1 ≤ length w ≤ Z.to_nat max_words) ws
    ∧ (∀ j w, S j < length ws → ws !! j = Some w → length w = Z.to_nat max_words)
    ∧ (allspace page_text = true → chunks = [])
    ∧ sum_list (map word_count chunks) = length (Py.split page_text)
    ∧ (max_words = 500%Z → length (Py.split page_text) = 1200 →
       map word_count chunks = [500; 500; 200]
       ∧ map page_number chunks = [page; page; page]).
Proof.
  intros Hk.
  pose proof (split_words page_text) as Hw.
  pose proof (windows_words _ (Z.to_nat max_words) Hw) as Hww.
  exists (windows (Py.split page_text) (Z.to_nat max_words)), 
         (map (mk_chunk page) (windows (Py.split page_text) (Z.to_nat max_words))).
  split; [by apply chunk_page_windows|]. split; [done|].
  split; [apply concat_windows; lia|].
  split; [apply windows_bounds; lia|].
  split; [intros j w; apply windows_full; lia|].
  split.
  { intros Hs. unfold Py.split. rewrite split_from_allspace; [|done].
    rewrite windows_nil; [done | lia]. }
  split.
  { unfold word_count. rewrite word_counts; [|done]. rewrite concat_windows; [done | lia]. }
  intros -> Hlen. rewrite word_counts_map; [|done].
  change (Z.to_nat 500) with 500 in *.
  split; [by apply windows_1200|].
  apply windows_1200 in Hlen.
  destruct (windows (Py.split page_text) 500) as [|a [|b [|c [|d l]]]]; simplify_eq/=. done.
Qed.

Lemma chunker_windows_witness :
  (1 ≤ 500)%Z ∧ length (Py.split page1200) = 1200
  ∧ ∃ chunks, chunk_page page1200 7 500 = Some chunks
       ∧ map word_count chunks = [500; 500; 200]
       ∧ map page_number chunks = [7%Z; 7%Z; 7%Z].
Proof.
  assert (Hlen : length (Py.split page1200) = 1200) by (vm_compute; reflexivity).
  split; [lia|]. split; [exact Hlen|].
  destruct (chunker_windows page1200 7 500 ltac:(lia))
    as (ws & chunks & H1 & _ & _ & _ & _ & _ & _ & H8).
  exists chunks. split; [exact H1|]. exact (H8 eq_refl Hlen).
Defined.
(** ** The batches and their chunk ids *)

Section batches.

Lemma starts_kept (words : list string) (k : nat) :
  1 ≤ k → Forall is_word words →
  Forall (fun i => Py.truthy (Py.strip (Py.join " " (Py.slice words i k))) = true)
         (map (fun j => j * k) (seq 0 ((length words + k - 1) / k))).
Proof.
  intros Hk Hw. apply Forall_map, Forall_forall. intros j Hj. simpl.
  apply elem_of_seq in Hj as [_ Hj]. simpl in Hj.
  apply ceil_bounds in Hj; [|lia].
  apply chunk_text_kept.
  - rewrite length_slice. lia.
  - unfold Py.slice. by apply Forall_take, Forall_drop.
Qed.

Variables (pid title repo_url : string).

Lemma fold_readme_step (words : list string) (k : nat) (starts : list nat) :
  Forall (fun i => Py.truthy (Py.strip (Py.join " " (Py.slice words i k))) = true) starts →
  ∀ b, fold_left (readme_step pid title repo_url words k) starts b
       = {| ids := ids b ++ map (fun i => pid +:+ "_github_readme_" +:+ pretty (i / k)) starts;
            documents := documents b ++ map (fun i => Py.join " " (Py.slice words i k)) starts;
            metadatas := metadatas b
              ++ map (fun _ => github_meta pid (title +:+ " - GitHub README") repo_url) starts |}.
Proof.
  induction 1 as [|i starts Hi _ IH]; intros b; simpl.
  - rewrite !app_nil_r. by destruct b.
  - rewrite IH. unfold readme_step at 1 2 3. rewrite Hi. simpl.
    by rewrite <- !app_assoc.
Qed.

Lemma readme_batch_windows (ctx : GithubContext) (b : Batch) :
  readme_batch pid title repo_url ctx b
  = {| ids := ids b ++ map (fun j => pid +:+ "_github_readme_" +:+ pretty j)
                           (seq 0 (length (windows (Py.split (readme ctx)) 500)));
       documents := documents b ++ map (Py.join " ") (windows (Py.split (readme ctx)) 500);
       metadatas := metadatas b
         ++ map (fun _ => github_meta pid (title +:+ " - GitHub README") repo_url)
                (windows (Py.split (readme ctx)) 500) |}.
Proof.
  unfold readme_batch. destruct (readme ctx) as [|c s] eqn:E.
  - change (Py.split "") with (@nil string). rewrite (windows_nil 500); [|lia].
    simpl. rewrite !app_nil_r. by destruct b.
  - cbn [Py.truthy]. rewrite range0_pos; [|lia]. rewrite Nat2Z.id. cbv [default from_option id].
    rewrite fold_readme_step; [|apply starts_kept; [lia | apply split_words]].
    unfold windows. rewrite length_map, length_seq, !map_map.
    f_equal. f_equal. apply map_ext. intros j. by rewrite Nat.div_mul.
Qed.

End batches.

Lemma chunk_id_inj (a b : string) :
  Inj (=) (=) (fun j : nat => a +:+ b +:+ pretty j).
Proof.
  intros i j H.
  by apply (inj (String.append a)), (inj (String.append b)), (inj pretty) in H.
Qed.

Lemma github_batch_windows (pid title repo_url : string) (ctx : GithubContext) :
  github_batch pid title repo_url ctx
  = requirements_batch pid title repo_url ctx
      {| ids := map (fun j => pid +:+ "_github_readme_" +:+ pretty j)
                    (seq 0 (length (windows (Py.split (readme ctx)) 500)));
         documents := map (Py.join " ") (windows (Py.split (readme ctx)) 500);
         metadatas := map (fun _ => github_meta pid (title +:+ " - GitHub README") repo_url)
                          (windows (Py.split (readme ctx)) 500) |}.
Proof. unfold github_batch. by rewrite readme_batch_windows. Qed.

(** C2, as the code has it.  For a document with a repository reference,
    the README is cut by the chunker with [max_words = 500] and its entry
    number [j] (counted from 0) gets the id
    ["{source_id}_github_readme_{j}"]; the dependency manifest is not
    chunked: when it is not empty it is stored whole as one entry, its
    text prefixed with ["Dependencies and requirements: "], under the id
    ["{source_id}_github_requirements"], which carries no index. *)
Theorem github_batch_shape (pid title repo_url : string) (ctx : GithubContext) :
  ∃ chunks : list Chunk,
    chunk_page (readme ctx) 0 500 = Some chunks
    ∧ github_batch pid title repo_url ctx
      = {| ids := imap (fun j _ => pid +:+ "_github_readme_" +:+ pretty j) chunks
                  ++ (if Py.truthy (requirements ctx)
                      then [pid +:+ "_github_requirements"] else []);
           documents := map text chunks
                  ++ (if Py.truthy (requirements ctx)
                      then ["Dependencies and requirements: " +:+ requirements ctx]
                      else []);
           metadatas := map (fun _ => github_meta pid (title +:+ " - GitHub README") repo_url)
                            chunks
                  ++ (if Py.truthy (requirements ctx)
                      then [github_meta pid (title +:+ " - Dependencies") repo_url]
                      else []) |}.
Proof.
  exists (map (mk_chunk 0) (windows (Py.split (readme ctx)) 500)).
  split; [by apply chunk_page_windows|].
  rewrite github_batch_windows. unfold requirements_batch.
  rewrite imap_seq_0, length_map, !map_map. simpl.
  destruct (Py.truthy (requirements ctx)); [done|].
  by rewrite !app_nil_r.
Qed.

(** C2, as the specification states it, fails: a manifest of two words is
    stored under an id without index and with a prefixed text, where the
    specification has the chunker's output under an indexed id. *)
Lemma github_manifest_not_chunked :
  let ctx := {| readme := "usage notes"; requirements := "numpy torch" |} in
  let gb := github_batch "2401.00001v1" "T" "https://github.com/a/b" ctx in
  zip (ids gb) (documents gb)
  = [ ("2401.00001v1_github_readme_0", "usage notes");
      ("2401.00001v1_github_requirements", "Dependencies and requirements: numpy torch") ]
  ∧ spec_github_entries "2401.00001v1" ctx
    = [ ("2401.00001v1_github_readme_0", "usage notes");
        ("2401.00001v1_github_requirements_0", "numpy torch") ]
  ∧ zip (ids gb) (documents gb) ≠ spec_github_entries "2401.00001v1" ctx.
Proof. vm_compute. split; [reflexivity|]. split; [reflexivity|]. discriminate. Qed.

Lemma paper_batch_ids (paper : Paper) (chunks : list Chunk) :
  ids (paper_batch paper chunks)
  = map (fun j => paper_id paper +:+ "_chunk_" +:+ pretty j) (seq 0 (length chunks)).
Proof. unfold paper_batch. simpl. by rewrite imap_seq_0. Qed.

Lemma github_batch_ids (pid title repo_url : string) (ctx : GithubContext) :
  ids (github_batch pid title repo_url ctx)
  = map (fun j => pid +:+ "_github_readme_" +:+ pretty j)
        (seq 0 (length (windows (Py.split (readme ctx)) 500)))
    ++ (if Py.truthy (requirements ctx) then [pid +:+ "_github_requirements"] else []).
Proof.
  rewrite github_batch_windows. unfold requirements_batch.
  destruct (Py.truthy (requirements ctx)); simpl; by rewrite ?app_nil_r.
Qed.

(** Two ids with the same paper id in front and different literal text
    after it are different. *)
Ltac differ_after pid H :=
  apply (inj (String.append pid)) in H; rewrite !str_app_cons in H; discriminate H.

(** C9.  The ids generated for one document, those of its own chunks
    followed by those of its repository batch, are pairwise distinct. *)
Theorem chunk_ids_distinct (paper : Paper) (chunks : list Chunk)
    (repo_url : string) (ctx : GithubContext) :
  NoDup (ids (paper_batch paper chunks)
         ++ ids (github_batch (paper_id paper) (p_title paper) repo_url ctx)).
Proof.
  rewrite paper_batch_ids, github_batch_ids.
  set (pid := paper_id paper). set (n := length (windows _ _)).
  apply NoDup_app. split; [|split].
  - apply NoDup_fmap_2; [apply chunk_id_inj | apply NoDup_seq].
  - intros x [i [-> _]]%list_elem_of_fmap Hx.
    apply elem_of_app in Hx as [Hx|Hx].
    + apply list_elem_of_fmap in Hx as [j [Hx _]].
      by differ_after pid Hx.
    + destruct (Py.truthy (requirements ctx)); [|by apply elem_of_nil in Hx].
      apply list_elem_of_singleton in Hx.
      by differ_after pid Hx.
  - apply NoDup_app. split; [|split].
    + apply NoDup_fmap_2; [apply chunk_id_inj | apply NoDup_seq].
    + intros x [j [-> _]]%list_elem_of_fmap Hx.
      destruct (Py.truthy (requirements ctx)); [|by apply elem_of_nil in Hx].
      apply list_elem_of_singleton in Hx.
      by differ_after pid Hx.
    + destruct (Py.truthy (requirements ctx)); [apply NoDup_singleton | apply NoDup_nil_2].
Qed.
(** ** [query_physics_db] and [get_reference] *)

Section retrieval.

Context (w : World).

Lemma zip3_map {A B C D} (f : A → B) (g : A → C) (h : A → D) (l : list A) :
  zip (zip (map f l) (map g l)) (map h l) = map (fun x => (f x, g x, h x)) l.
Proof. induction l as [|x l IH]; [done|]. simpl. by rewrite IH. Qed.

Lemma hits_empty (qe : list pyfloat) (n_results : Z) : hits w qe n_results ∅ = [].
Proof.
  unfold hits. induction (nearest w qe n_results ∅) as [|[i d] l IH]; [done|].
  simpl. by rewrite lookup_empty.
Qed.


End retrieval.




(** C7.  [query_physics_db] returns the empty list when the collection is
    empty, when the store's ranking has no match, when the store's
    [query] call raises, and when embedding the question raises.  The
    method's whole body is inside [try], so no exception leaves it: it is
    a total function into lists. *)
Theorem query_empty (w : World) (question : string) (k : Z) (kb : KB) :
  collection kb = ∅
  ∨ nearest w (embed w question) k (collection kb) = []
  ∨ query_raises w [embed w question] k = true
  ∨ encode_raises w [question] = true →
  query_physics_db w question k kb = [].
Proof.
  intros H. unfold query_physics_db, encode.
  destruct (encode_raises w [question]) eqn:He; [done|]. simpl.
  unfold collection_query.
  destruct (query_raises w [embed w question] k) eqn:Hq; [done|]. simpl.
  destruct H as [H|[H|[H|H]]]; [| |done..].
  - by rewrite H, hits_empty.
  - unfold hits. by rewrite H.
Qed.

Lemma query_empty_witness :
  query_physics_db (world_of nothing_found None [] no_context false false false false)
                   "shadows" 3 empty_kb = []
  ∧ query_physics_db (world_of nothing_found None [] no_context false false true false)
                     "shadows" 3 bare_kb = [].
Proof.
  split.
  - apply query_empty. left. reflexivity.
  - apply query_empty. right. right. left. reflexivity.
Defined.

Section resolver.

Context (w : World) (sid : string).

Lemma collection_get_found (c : gmap string Entry) :
  get_raises w sid = false →
  (∃ i e, c !! i = Some e ∧ has_source sid (metadata e)) →
  ∃ i e l, c !! i = Some e ∧ has_source sid (metadata e)
           ∧ collection_get w "source_id" sid 1 c = Some (metadata e :: l).
Proof.
  intros Hg (i & e & Hie & He). unfold collection_get. rewrite Hg.
  destruct (filter _ _) as [|m l] eqn:E.
  - assert (Hin : metadata e ∈ filter (fun m => m !! "source_id" = Some (PStr sid))
                     (map (fun ie : string * Entry => metadata ie.2) (map_to_list c))).
    { apply list_elem_of_filter. split; [exact He|].
      apply list_elem_of_fmap. exists (i, e). split; [done|].
      by apply elem_of_map_to_list. }
    rewrite E in Hin. by apply elem_of_nil in Hin.
  - assert (Hin : m ∈ m :: l) by left. rewrite <- E in Hin.
    apply list_elem_of_filter in Hin as [Hm Hin].
    apply list_elem_of_fmap in Hin as ([j e'] & -> & Hin).
    apply elem_of_map_to_list in Hin.
    exists j, e', []. split; [done|]. split; [done|]. reflexivity.
Qed.

Lemma collection_get_none (c : gmap string Entry) :
  (∀ i e, c !! i = Some e → ¬ has_source sid (metadata e)) →
  collection_get w "source_id" sid 1 c = None
  ∨ collection_get w "source_id" sid 1 c = Some [].
Proof.
  intros Hno. unfold collection_get.
  destruct (get_raises w sid); [by left|]. right.
  destruct (filter _ _) as [|m l] eqn:E; [done|].
  assert (Hin : m ∈ m :: l) by left. rewrite <- E in Hin.
  apply list_elem_of_filter in Hin as [Hm Hin].
  apply list_elem_of_fmap in Hin as ([j e'] & -> & Hin).
  apply elem_of_map_to_list in Hin. by destruct (Hno j e' Hin).
Qed.

End resolver.

(** C6.  [get_reference] answers from the cache when the id is cached.
    Otherwise, when the store's [get] call does not raise and some entry
    of the collection has the id as its [source_id], it answers with the
    title and url of such an entry (["Unknown"] and the empty string
    standing in for a missing field).  When the id is neither cached nor
    the [source_id] of any entry, it returns [None]. *)
Theorem get_reference_tiers (w : World) (sid : string) (kb : KB) :
  (∀ cached, _paper_metadata kb !! sid = Some cached →
     get_reference w sid kb
     = Some {| ref_title := PStr (c_title cached); ref_url := PStr (c_url cached) |})
  ∧ (_paper_metadata kb !! sid = None →
     get_raises w sid = false →
     (∃ i e, collection kb !! i = Some e
             ∧ metadata e !! "source_id" = Some (PStr sid)) →
     ∃ i e, collection kb !! i = Some e
            ∧ metadata e !! "source_id" = Some (PStr sid)
            ∧ get_reference w sid kb
              = Some {| ref_title := default (PStr "Unknown") (metadata e !! "title");
                        ref_url := default (PStr "") (metadata e !! "url") |})
  ∧ (_paper_metadata kb !! sid = None →
     (∀ i e, collection kb !! i = Some e →
             metadata e !! "source_id" ≠ Some (PStr sid)) →
     get_reference w sid kb = None).
Proof.
  unfold get_reference. split; [|split].
  - by intros cached ->.
  - intros -> Hg Hex.
    destruct (collection_get_found w sid (collection kb) Hg Hex)
      as (i & e & l & Hie & He & ->).
    by exists i, e.
  - intros -> Hno.
    by destruct (collection_get_none w sid (collection kb) Hno) as [-> | ->].
Qed.

Lemma get_reference_tiers_witness :
  let w := world_of nothing_found None [] no_context false false false false in
  get_reference w "2401.00001v1" cached_kb
  = Some {| ref_title := PStr "Photometric stereo";
            ref_url := PStr "https://arxiv.org/pdf/2401.00001v1" |}
  ∧ (∃ i e, collection stored_kb !! i = Some e
            ∧ metadata e !! "source_id" = Some (PStr "2401.00001v1")
            ∧ get_reference w "2401.00001v1" stored_kb
              = Some {| ref_title := default (PStr "Unknown") (metadata e !! "title");
                        ref_url := default (PStr "") (metadata e !! "url") |})
  ∧ get_reference w "unknown-id" stored_kb = None.
Proof.
  intros w.
  destruct (get_reference_tiers w "2401.00001v1" cached_kb) as (H1 & _ & _).
  destruct (get_reference_tiers w "2401.00001v1" stored_kb) as (_ & H2 & _).
  destruct (get_reference_tiers w "unknown-id" stored_kb) as (_ & _ & H3).
  split; [|split].
  - apply (H1 {| c_title := "Photometric stereo";
                 c_url := "https://arxiv.org/pdf/2401.00001v1";
                 c_summary := ""; c_repo_url := None |}).
    vm_compute. reflexivity.
  - apply H2; [vm_compute; reflexivity | reflexivity |].
    exists "2401.00001v1_chunk_0",
      {| document := "shadows"; embedding := [];
         metadata := paper_meta "2401.00001v1" "Photometric stereo" 1
                                "https://arxiv.org/pdf/2401.00001v1" |}.
    split; vm_compute; reflexivity.
  - apply H3; [vm_compute; reflexivity|].
    intros i e Hie. unfold stored_kb in Hie. simpl in Hie.
    apply lookup_singleton_Some in Hie as [_ <-]. vm_compute. discriminate.
Defined.
(** ** [crawl_physics_knowledge] *)

Section crawl.

Context (w : World).

Lemma kb_eta (kb : KB) :
  {| collection := collection kb; _paper_metadata := _paper_metadata kb |} = kb.
Proof. by destruct kb. Qed.

Lemma fold_put_union (es : list (string * Entry)) :
  ∀ A c : gmap string Entry,
    fold_left put es (A ∪ c) = fold_left put es A ∪ c.
Proof.
  induction es as [|ie es IH]; intros A c; [done|].
  simpl. unfold put at 2 4. by rewrite insert_union_l, IH.
Qed.

Lemma framed_ret (o : outcome nat) : framed (fun kb => (o, kb)).
Proof.
  exists o, ∅, ∅. intros kb. by rewrite !(left_id ∅ (∪)), kb_eta.
Qed.

Lemma framed_bind (f : KB → outcome nat * KB) (g : nat → KB → outcome nat * KB) :
  framed f → (∀ t, framed (g t)) →
  framed (fun kb => match f kb with
                    | (Returned t, kb') => g t kb'
                    | (Raised, kb') => (Raised, kb')
                    end).
Proof.
  intros (o & Wc & Wm & Hf) Hg. destruct o as [t|].
  - destruct (Hg t) as (o' & Wc' & Wm' & Hg').
    exists o', (Wc' ∪ Wc), (Wm' ∪ Wm). intros kb.
    rewrite Hf, Hg'. simpl. by rewrite !(assoc_L (∪)).
  - exists Raised, Wc, Wm. intros kb. by rewrite Hf.
Qed.

Lemma framed_ext (f g : KB → outcome nat * KB) :
  (∀ kb, f kb = g kb) → framed f → framed g.
Proof.
  intros Hfg (o & Wc & Wm & Hf). exists o, Wc, Wm. intros kb. by rewrite <- Hfg.
Qed.

Lemma store_batch_framed (b : Batch) (total : nat) : framed (store_batch w b total).
Proof.
  unfold store_batch, upsert.
  destruct (encode w (documents b)) as [embeddings|]; [|apply framed_ret].
  destruct (upsert_raises w (ids b)); [apply framed_ret|].
  exists (Returned (total + length (documents b))),
         (fold_left put (entries b embeddings) ∅), ∅.
  intros kb. rewrite <- fold_put_union. by rewrite !(left_id ∅ (∪)).
Qed.

Lemma ingest_paper_framed (paper : Paper) (total : nat) :
  framed (ingest_paper w paper total).
Proof.
  unfold ingest_paper.
  destruct (read_paper w (p_pdf_url paper) 500) as [|c chunks]; [apply framed_ret|].
  eapply framed_ext;
    [|apply (framed_bind (store_batch w (paper_batch paper (c :: chunks)) total)
               (fun t kb' =>
                  match repo_of paper with
                  | None => (Returned t, kb')
                  | Some repo_url =>
                      let gb := github_batch (paper_id paper) (p_title paper) repo_url
                                  (fetch_github_context w repo_url) in
                      match documents gb with
                      | [] => (Returned t, kb')
                      | _ => store_batch w gb t kb'
                      end
                  end))].
  - intros kb. simpl. by destruct (store_batch _ _ _ kb) as [[t|] kb'].
  - apply store_batch_framed.
  - intros t. destruct (repo_of paper) as [repo_url|]; [|apply framed_ret].
    simpl. destruct (documents _); [apply framed_ret | apply store_batch_framed].
Qed.

Lemma crawl_loop_framed (papers : list Paper) :
  ∀ total, framed (crawl_loop w papers total).
Proof.
  induction papers as [|paper rest IH]; intros total; [apply framed_ret|].
  simpl. apply (framed_bind (ingest_paper w paper total) (crawl_loop w rest));
    [apply ingest_paper_framed | exact IH].
Qed.

Lemma fold_search_step (found : list ArxivResult) :
  ∀ acc, fold_left (search_step w) found acc
         = (acc.1 ++ map (paper_of w) found,
            fold_left (cache_step w) found acc.2).
Proof.
  induction found as [|q found IH]; intros [ps m]; simpl.
  - by rewrite app_nil_r.
  - rewrite IH. simpl. by rewrite <- app_assoc.
Qed.

Lemma fold_cache_union (found : list ArxivResult) :
  ∀ A m : gmap string CachedPaper,
    fold_left (cache_step w) found (A ∪ m)
    = fold_left (cache_step w) found A ∪ m.
Proof.
  induction found as [|q found IH]; intros A m; [done|].
  simpl. unfold cache_step at 2 4. by rewrite insert_union_l, IH.
Qed.

Lemma search_arxiv_eq (query : string) (max_results : Z) (kb : KB) :
  search_arxiv w query max_results kb
  = (map (paper_of w) (yielded (arxiv_results w query max_results)),
     {| collection := collection kb;
        _paper_metadata :=
          fold_left (cache_step w)
                    (yielded (arxiv_results w query max_results)) ∅
          ∪ _paper_metadata kb |}).
Proof.
  unfold search_arxiv. rewrite fold_search_step. simpl.
  by rewrite <- fold_cache_union, (left_id ∅ (∪)).
Qed.

Lemma crawl_framed (topic : string) (max_papers : Z) :
  framed (crawl_physics_knowledge w topic max_papers).
Proof.
  set (found := yielded (arxiv_results w topic max_papers)).
  set (Wm0 := fold_left (cache_step w) found ∅).
  destruct (crawl_loop_framed (map (paper_of w) found) 0) as (o & Wc & Wm & Hloop).
  destruct (map (paper_of w) found) as [|p ps] eqn:E.
  - exists (Returned 0), ∅, Wm0. intros kb.
    unfold crawl_physics_knowledge. rewrite search_arxiv_eq. fold found. rewrite E.
    simpl. by rewrite (left_id ∅ (∪)).
  - exists o, Wc, (Wm ∪ Wm0). intros kb.
    unfold crawl_physics_knowledge. rewrite search_arxiv_eq. fold found. rewrite E.
    cbn [fst snd]. rewrite Hloop. simpl. by rewrite (assoc_L (∪)).
Qed.

End crawl.

(** C5.  Two runs of the crawl in the same world write the same entries
    under the same chunk ids, so the second run leaves the collection as
    the first one left it: the total count and the number of entries of
    every source are unchanged, and so is the outcome. *)
Theorem crawl_idempotent (w : World) (topic : string) (max_papers : Z) (kb : KB) :
  let r1 := crawl_physics_knowledge w topic max_papers kb in
  let r2 := crawl_physics_knowledge w topic max_papers r1.2 in
  (∃ written : gmap string Entry,
      collection r1.2 = written ∪ collection kb
      ∧ collection r2.2 = written ∪ collection r1.2)
  ∧ r2.1 = r1.1
  ∧ collection r2.2 = collection r1.2
  ∧ count (collection r2.2) = count (collection r1.2)
  ∧ ∀ sid, size (entries_of sid (collection r2.2))
           = size (entries_of sid (collection r1.2)).
Proof.
  destruct (crawl_framed w topic max_papers) as (o & Wc & Wm & H).
  intros r1 r2. subst r1 r2. rewrite !H. simpl.
  assert (Hc : Wc ∪ (Wc ∪ collection kb) = Wc ∪ collection kb)
    by (by rewrite (assoc_L (∪)), (idemp_L (∪))).
  split; [by exists Wc|]. split; [done|]. split; [done|].
  rewrite Hc. done.
Qed.

(** C8.  When ArXiv yields no paper, whether the search ended normally or
    with an exception, the crawl returns 0 and changes nothing. *)
Theorem crawl_nothing_found (w : World) (topic : string) (max_papers : Z) (kb : KB) :
  yielded (arxiv_results w topic max_papers) = [] →
  crawl_physics_knowledge w topic max_papers kb = (Returned 0, kb).
Proof.
  intros H. unfold crawl_physics_knowledge, search_arxiv. rewrite H. simpl.
  by rewrite kb_eta.
Qed.

Lemma crawl_nothing_found_witness :
  crawl_physics_knowledge
    (world_of nothing_found None [] no_context false false false false)
    "photometric stereo" 5 stored_kb = (Returned 0, stored_kb)
  ∧ failed discovery_down = true
  ∧ crawl_physics_knowledge
      (world_of discovery_down None [] no_context false false false false)
      "photometric stereo" 5 stored_kb = (Returned 0, stored_kb).
Proof.
  split; [|split].
  - apply crawl_nothing_found. reflexivity.
  - reflexivity.
  - apply crawl_nothing_found. reflexivity.
Defined.

Lemma store_batch_upsert_raises (w : World) (b : Batch) (total : nat) (kb : KB) :
  encode_raises w (documents b) = false → upsert_raises w (ids b) = true →
  store_batch w b total kb = (Returned total, kb).
Proof. intros He Hu. unfold store_batch, encode, upsert. by rewrite He, Hu. Qed.

Lemma store_batch_encode_raises (w : World) (b : Batch) (total : nat) (kb : KB) :
  encode_raises w (documents b) = true →
  store_batch w b total kb = (Raised, kb).
Proof. intros He. unfold store_batch, encode. by rewrite He. Qed.

Lemma ingest_paper_encode_raises (w : World) (paper : Paper) (total : nat) (kb : KB) :
  read_paper w (p_pdf_url paper) 500 ≠ [] →
  encode_raises w (map text (read_paper w (p_pdf_url paper) 500)) = true →
  ingest_paper w paper total kb = (Raised, kb).
Proof.
  intros Hne He. unfold ingest_paper.
  destruct (read_paper w (p_pdf_url paper) 500) as [|c chunks]; [done|].
  by rewrite store_batch_encode_raises.
Qed.

(** C1.  One paper with one page of text, in a world where the embedding
    model raises: the exception leaves [crawl_physics_knowledge].  In the
    same world with a failing [upsert] instead, the crawl returns 0. *)
Theorem crawl_embedding_failure_escapes :
  (crawl_physics_knowledge
     (world_of one_paper None ["Shadows constrain the light direction."]
               no_context true false false false)
     "photometric stereo" 1 empty_kb).1 = Raised
  ∧ (crawl_physics_knowledge
       (world_of one_paper None ["Shadows constrain the light direction."]
                 no_context false true false false)
       "photometric stereo" 1 empty_kb).1 = Returned 0.
Proof. split; vm_compute; reflexivity. Qed.

Section cache.

Context (w : World).

Lemma store_batch_cache (b : Batch) (total : nat) (kb : KB) :
  _paper_metadata (store_batch w b total kb).2 = _paper_metadata kb.
Proof.
  unfold store_batch. destruct (encode w (documents b)); [|done].
  by destruct (upsert w b _ (collection kb)).
Qed.

Lemma ingest_paper_cache (paper : Paper) (total : nat) (kb : KB) :
  _paper_metadata (ingest_paper w paper total kb).2 = _paper_metadata kb.
Proof.
  unfold ingest_paper. destruct (read_paper w (p_pdf_url paper) 500) as [|c chunks]; [done|].
  pose proof (store_batch_cache (paper_batch paper (c :: chunks)) total kb) as H1.
  destruct (store_batch w (paper_batch paper (c :: chunks)) total kb) as [[t|] kb1];
    [|done].
  simpl in H1. destruct (repo_of paper) as [repo_url|]; [|done].
  simpl. destruct (documents _); [done|]. by rewrite store_batch_cache.
Qed.

Lemma crawl_loop_cache (papers : list Paper) :
  ∀ total kb, _paper_metadata (crawl_loop w papers total kb).2 = _paper_metadata kb.
Proof.
  induction papers as [|paper rest IH]; intros total kb; [done|]. simpl.
  pose proof (ingest_paper_cache paper total kb) as H1.
  destruct (ingest_paper w paper total kb) as [[t|] kb1]; [|done].
  by rewrite IH.
Qed.

Lemma crawl_cache (topic : string) (max_papers : Z) (kb : KB) :
  _paper_metadata (crawl_physics_knowledge w topic max_papers kb).2
  = fold_left (cache_step w) (yielded (arxiv_results w topic max_papers))
              (_paper_metadata kb).
Proof.
  unfold crawl_physics_knowledge, search_arxiv. rewrite fold_search_step.
  cbn [fst snd]. destruct (_ ++ _); [done|]. by rewrite crawl_loop_cache.
Qed.

Lemma cache_last (sid : string) (found : list ArxivResult) :
  ∀ m : gmap string CachedPaper,
    (∃ q, q ∈ found ∧ ar_short_id q = sid) →
    ∃ q, q ∈ found ∧ ar_short_id q = sid
         ∧ fold_left (cache_step w) found m !! sid = Some (cached_of w q).
Proof.
  induction found as [|x rest IH] using rev_ind; intros m (q & Hq & Hid).
  - by apply elem_of_nil in Hq.
  - rewrite fold_left_app. simpl. unfold cache_step at 1.
    destruct (decide (ar_short_id x = sid)) as [Hx|Hx].
    + exists x. split; [apply elem_of_app; right; left|]. split; [done|].
      rewrite <- Hx. apply lookup_insert_eq.
    + apply elem_of_app in Hq as [Hq|Hq].
      * destruct (IH m) as (q' & Hq' & Hid' & Hl); [by exists q|].
        exists q'. split; [apply elem_of_app; by left|]. split; [done|].
        by rewrite lookup_insert_ne.
      * apply list_elem_of_singleton in Hq. by subst.
Qed.

End cache.

Section sources.

Context (w : World) (sid : string).

Lemma fold_put_no_source (es : list (string * Entry)) :
  Forall (fun ie => ¬ has_source sid (metadata ie.2)) es →
  ∀ c, no_source sid c → no_source sid (fold_left put es c).
Proof.
  induction 1 as [|ie es Hie _ IH]; intros c Hc; [done|].
  simpl. apply IH. intros i e. unfold put.
  destruct (decide (ie.1 = i)) as [->|Hne].
  - rewrite lookup_insert_eq. by intros [= <-].
  - rewrite lookup_insert_ne; [|done]. apply Hc.
Qed.

Lemma entries_metadata (P : gmap string pyval → Prop) (b : Batch)
    (embeddings : list (list pyfloat)) :
  Forall P (metadatas b) → Forall (fun ie => P (metadata ie.2)) (entries b embeddings).
Proof.
  intros H. apply Forall_forall. intros [i e] Hin. simpl.
  apply elem_of_zip_r in Hin.
  apply elem_of_zip_with in Hin as (d & [em m] & -> & _ & Hm). simpl.
  apply elem_of_zip_r in Hm. rewrite Forall_forall in H. by apply H.
Qed.

Lemma store_batch_no_source (b : Batch) (total : nat) (kb : KB) :
  Forall (fun m => ¬ has_source sid m) (metadatas b)
  ∨ (∀ l, upsert_raises w l = true) →
  no_source sid (collection kb) →
  no_source sid (collection (store_batch w b total kb).2).
Proof.
  intros H Hkb. unfold store_batch, upsert.
  destruct (encode w (documents b)) as [embeddings|]; [|done].
  destruct (upsert_raises w (ids b)) eqn:Hu; [done|]. simpl.
  destruct H as [H|H]; [|by rewrite H in Hu].
  apply fold_put_no_source; [|done].
  by apply (entries_metadata (fun m => ¬ has_source sid m)).
Qed.

Lemma paper_meta_source (pid title : string) (page : Z) (url : string) :
  has_source sid (paper_meta pid title page url) → pid = sid.
Proof.
  unfold has_source, paper_meta. rewrite lookup_insert_eq. by intros [= ->].
Qed.

Lemma github_meta_source (pid title url : string) :
  has_source sid (github_meta pid title url) → pid = sid.
Proof.
  unfold has_source, github_meta. rewrite lookup_insert_eq. by intros [= ->].
Qed.

Lemma paper_batch_sources (paper : Paper) (chunks : list Chunk) :
  paper_id paper ≠ sid →
  Forall (fun m => ¬ has_source sid m) (metadatas (paper_batch paper chunks)).
Proof.
  intros Hne. unfold paper_batch. simpl. apply Forall_map, Forall_forall.
  intros c _ Hs. by apply paper_meta_source in Hs.
Qed.

Lemma github_batch_sources (pid title repo_url : string) (ctx : GithubContext) :
  pid ≠ sid →
  Forall (fun m => ¬ has_source sid m) (metadatas (github_batch pid title repo_url ctx)).
Proof.
  intros Hne. rewrite github_batch_windows. unfold requirements_batch.
  assert (Hr : Forall (fun m => ¬ has_source sid m)
                 (map (fun _ : list string =>
                         github_meta pid (title +:+ " - GitHub README") repo_url)
                      (windows (Py.split (readme ctx)) 500))).
  { apply Forall_map, Forall_forall. intros c _ Hs. by apply github_meta_source in Hs. }
  destruct (Py.truthy (requirements ctx)); simpl; [|done].
  apply Forall_app. split; [done|]. constructor; [|done].
  intros Hs. by apply github_meta_source in Hs.
Qed.

Lemma ingest_paper_no_source (paper : Paper) (total : nat) (kb : KB) :
  paper_id paper ≠ sid
  ∨ read_paper w (p_pdf_url paper) 500 = []
  ∨ (∀ l, upsert_raises w l = true) →
  no_source sid (collection kb) →
  no_source sid (collection (ingest_paper w paper total kb).2).
Proof.
  intros H Hkb. unfold ingest_paper.
  destruct (read_paper w (p_pdf_url paper) 500) as [|c chunks] eqn:Er; [done|].
  assert (H' : paper_id paper ≠ sid ∨ (∀ l, upsert_raises w l = true))
    by (destruct H as [?|[?|?]]; [by left | done | by right]).
  assert (H1 : no_source sid (collection
             (store_batch w (paper_batch paper (c :: chunks)) total kb).2)).
  { apply store_batch_no_source; [|done].
    destruct H' as [?|?]; [left; by apply paper_batch_sources | by right]. }
  destruct (store_batch w (paper_batch paper (c :: chunks)) total kb) as [[t|] kb1];
    [|done].
  simpl in H1. destruct (repo_of paper) as [repo_url|]; [|done].
  simpl. destruct (documents _); [done|].
  apply store_batch_no_source; [|done].
  destruct H' as [?|?]; [left; by apply github_batch_sources | by right].
Qed.

Lemma crawl_loop_no_source (papers : list Paper) :
  Forall (fun paper => paper_id paper ≠ sid
                       ∨ read_paper w (p_pdf_url paper) 500 = []
                       ∨ (∀ l, upsert_raises w l = true)) papers →
  ∀ total kb, no_source sid (collection kb) →
              no_source sid (collection (crawl_loop w papers total kb).2).
Proof.
  induction 1 as [|paper rest Hp _ IH]; intros total kb Hkb; [done|]. simpl.
  pose proof (ingest_paper_no_source paper total kb Hp Hkb) as H1.
  destruct (ingest_paper w paper total kb) as [[t|] kb1]; [|done].
  by apply IH.
Qed.

Lemma crawl_no_source (topic : string) (max_papers : Z) (kb : KB) :
  Forall (fun q => ar_short_id q ≠ sid
                   ∨ read_paper w (ar_pdf_url q) 500 = []
                   ∨ (∀ l, upsert_raises w l = true))
         (yielded (arxiv_results w topic max_papers)) →
  no_source sid (collection kb) →
  no_source sid (collection (crawl_physics_knowledge w topic max_papers kb).2).
Proof.
  intros Hf Hkb. unfold crawl_physics_knowledge. rewrite search_arxiv_eq.
  cbn [fst snd].
  assert (Hps : Forall (fun paper => paper_id paper ≠ sid
                          ∨ read_paper w (p_pdf_url paper) 500 = []
                          ∨ (∀ l, upsert_raises w l = true))
                  (map (paper_of w) (yielded (arxiv_results w topic max_papers))))
    by (by apply Forall_map).
  destruct (map (paper_of w) _) as [|p ps] eqn:E; [done|].
  by apply crawl_loop_no_source.
Qed.

End sources.

(** C10.  Every paper ArXiv yields is cached by [search_arxiv] before
    any ingestion, and [get_reference] looks in the cache first: after
    the crawl, however it ended, the id of a yielded paper resolves to
    the title and url of a yielded paper with that id.  It does so even
    with no entry of that source in the collection, as is the case when
    the collection held none before and, for every yielded paper with
    that id, no chunk was extracted, or when every upsert raised. *)
Theorem cached_paper_resolves (w : World) (topic : string) (max_papers : Z)
    (kb : KB) (paper : ArxivResult) :
  paper ∈ yielded (arxiv_results w topic max_papers) →
  let sid := ar_short_id paper in
  let kb' := (crawl_physics_knowledge w topic max_papers kb).2 in
  (∃ q, q ∈ yielded (arxiv_results w topic max_papers)
        ∧ ar_short_id q = sid
        ∧ get_reference w sid kb'
          = Some {| ref_title := PStr (ar_title q); ref_url := PStr (ar_pdf_url q) |})
  ∧ (no_source sid (collection kb) →
     (∀ q, q ∈ yielded (arxiv_results w topic max_papers) →
           ar_short_id q = sid → read_paper w (ar_pdf_url q) 500 = [])
     ∨ (∀ l, upsert_raises w l = true) →
     no_source sid (collection kb')).
Proof.
  intros Hin sid kb'. split.
  - destruct (cache_last w sid (yielded (arxiv_results w topic max_papers))
                (_paper_metadata kb)) as (q & Hq & Hid & Hl); [by exists paper|].
    exists q. split; [done|]. split; [done|].
    unfold get_reference. subst kb'. by rewrite crawl_cache, Hl.
  - intros Hkb H. apply crawl_no_source; [|done].
    apply Forall_forall. intros q Hq.
    destruct H as [H|H]; [|by right; right].
    destruct (decide (ar_short_id q = sid)) as [Hid|Hid]; [|by left].
    right. left. by apply H.
Qed.

Lemma cached_paper_resolves_witness :
  let w := world_of one_paper None [] no_context false false false false in
  let kb' := (crawl_physics_knowledge w "photometric stereo" 1 empty_kb).2 in
  read_paper w "https://arxiv.org/pdf/2401.00001v1" 500 = []
  ∧ no_source "2401.00001v1" (collection kb')
  ∧ get_reference w "2401.00001v1" kb'
    = Some {| ref_title := PStr "Photometric stereo";
              ref_url := PStr "https://arxiv.org/pdf/2401.00001v1" |}.
Proof.
  intros w kb'. split; [reflexivity|].
  destruct (cached_paper_resolves w "photometric stereo" 1 empty_kb
              {| ar_title := "Photometric stereo";
                 ar_pdf_url := "https://arxiv.org/pdf/2401.00001v1";
                 ar_summary := "We estimate normals.";
                 ar_short_id := "2401.00001v1" |})
    as [(q & Hq & _ & Hr) Hs]; [left|].
  split.
  - apply Hs.
    + intros i e Hie. simpl in Hie. by rewrite lookup_empty in Hie.
    + left. intros q' _ _. reflexivity.
  - apply list_elem_of_singleton in Hq. subst q. exact Hr.
Defined.

(** * Beyond the claims *)

(** ** [read_paper] *)

Section read_paper_facts.

Lemma read_pages_spec (k : Z) :
  (1 ≤ k)%Z →
  ∀ pages n chunks,
    read_pages pages n k chunks
    = chunks ++ concat (imap (fun i => page_chunks (Z.to_nat k) (n + i)) pages).
Proof.
  intros Hk. induction pages as [|t rest IH]; intros n chunks; simpl.
  - by rewrite app_nil_r.
  - rewrite chunk_page_windows; [|done]. rewrite IH, <- app_assoc.
    rewrite Nat.add_0_r. f_equal. f_equal. f_equal.
    apply imap_ext. intros i x _. simpl. f_equal. lia.
Qed.

Lemma pages_from (k : nat) :
  ∀ pages n,
    Forall (fun c => (Z.of_nat n + 1 ≤ page_number c ≤ Z.of_nat (n + length pages))%Z)
           (concat (imap (fun i => page_chunks k (n + i)) pages))
    ∧ StronglySorted (fun c d => (page_number c ≤ page_number d)%Z)
           (concat (imap (fun i => page_chunks k (n + i)) pages)).
Proof.
  induction pages as [|t rest IH]; intros n; simpl.
  - split; constructor.
  - destruct (IH (S n)) as [Hb Hs].
    assert (Heq : imap ((fun i => page_chunks k (n + i)) ∘ S) rest
                  = imap (fun i => page_chunks k (S n + i)) rest).
    { apply imap_ext. intros i x _. simpl. f_equal. lia. }
    rewrite Heq, Nat.add_0_r.
    assert (Hp : Forall (fun c => page_number c = (Z.of_nat n + 1)%Z) (page_chunks k n t)).
    { unfold page_chunks. apply Forall_map, Forall_forall. by intros ws _. }
    split.
    + apply Forall_app. split.
      * eapply Forall_impl; [exact Hp|]. intros c ->. simpl. lia.
      * eapply Forall_impl; [exact Hb|]. intros c Hc. simpl in Hc. lia.
    + apply StronglySorted_app. split; [|split; [|done]].
      * intros c d Hc Hd. rewrite Forall_forall in Hp, Hb.
        rewrite (Hp c Hc). specialize (Hb d Hd). simpl in Hb. lia.
      * clear -Hp. induction Hp as [|c l Hc Hl IHl]; constructor; [done|].
        eapply Forall_impl; [exact Hl|]. intros d ->. lia.
Qed.

Lemma elem_of_concat {A} (x : A) (ls : list (list A)) :
  x ∈ concat ls ↔ ∃ l, x ∈ l ∧ l ∈ ls.
Proof.
  induction ls as [|l ls IH]; simpl.
  - split; [by intros ?%elem_of_nil | by intros (l & _ & ?%elem_of_nil)].
  - rewrite elem_of_app, IH. split.
    + intros [H|(l' & H1 & H2)]; [exists l; split; [done | left] | exists l'; split; [done | by right]].
    + intros (l' & H1 & H2). apply elem_of_cons in H2 as [->|H2]; [by left | right; by exists l'].
Qed.

Lemma elem_of_pages_chunks (k : nat) (pages : list string) (c : Chunk) :
  c ∈ concat (imap (page_chunks k) pages)
  ↔ ∃ i t ws, pages !! i = Some t ∧ ws ∈ windows (Py.split t) k
              ∧ c = mk_chunk (Z.of_nat i + 1) ws.
Proof.
  rewrite elem_of_concat. split.
  - intros (l & Hc & Hl). apply elem_of_lookup_imap in Hl as (i & t & -> & Ht).
    unfold page_chunks in Hc. apply list_elem_of_fmap in Hc as (ws & -> & Hws).
    by exists i, t, ws.
  - intros (i & t & ws & Ht & Hws & ->). exists (page_chunks k i t). split.
    + unfold page_chunks. apply list_elem_of_fmap. by exists ws.
    + apply elem_of_lookup_imap. by exists i, t.
Qed.

End read_paper_facts.

Section normal_form.

Lemma rstrip_app (a b : string) :
  Py.truthy (Py.rstrip b) = true → Py.rstrip (a +:+ b) = a +:+ Py.rstrip b.
Proof.
  intros Hb. induction a as [|c a IH]; [done|].
  rewrite !str_app_cons. simpl. rewrite IH.
  destruct (a +:+ Py.rstrip b) as [|x r] eqn:E; [|done].
  destruct a; [rewrite str_app_nil_l in E; by rewrite E in Hb | by rewrite str_app_cons in E].
Qed.

Lemma rstrip_word (w : string) : nospace w = true → Py.rstrip w = w.
Proof.
  induction w as [|c w IH]; [done|]. simpl. intros [Hc Hw]%andb_prop.
  apply negb_true_iff in Hc. rewrite IH, Hc; [|done]. by destruct w.
Qed.

Lemma rstrip_join (ws : list string) :
  Forall is_word ws → Py.rstrip (Py.join " " ws) = Py.join " " ws.
Proof.
  induction 1 as [|w ws [Hw1 Hw2] Hws IH]; [done|].
  destruct ws as [|w' ws]; [by apply rstrip_word|].
  change (Py.join " " (w :: w' :: ws)) with (w +:+ " " +:+ Py.join " " (w' :: ws)).
  assert (Ht : Py.truthy (Py.join " " (w' :: ws)) = true).
  { inversion Hws as [|? ? [Hx _] _]; subst. destruct w'; [done|]. by destruct ws. }
  assert (Hs : Py.rstrip (" " +:+ Py.join " " (w' :: ws)) = " " +:+ Py.join " " (w' :: ws))
    by (rewrite rstrip_app; by rewrite IH).
  rewrite rstrip_app; by rewrite Hs.
Qed.

Lemma strip_join (ws : list string) :
  Forall is_word ws → Py.strip (Py.join " " ws) = Py.join " " ws.
Proof.
  intros Hws. unfold Py.strip. rewrite rstrip_join; [|done].
  destruct Hws as [|w ws [Hw1 Hw2] Hws]; [done|].
  destruct w as [|c w]; [done|]. simpl in Hw2. apply andb_prop in Hw2 as [Hc _].
  apply negb_true_iff in Hc.
  destruct ws; simpl; [|rewrite str_app_cons; simpl]; by rewrite Hc.
Qed.

Lemma split_from_nil (s : string) :
  ∀ cur, Py.split_from cur s = [] → Py.truthy cur = false ∧ allspace s = true.
Proof.
  induction s as [|c s IH]; intros cur; simpl.
  - by destruct (Py.truthy cur).
  - destruct (Py.isspace c).
    + destruct (Py.truthy cur); [done|]. intros H. by apply IH in H as [_ ->].
    + intros H. apply IH in H as [H _]. by destruct cur.
Qed.

Lemma split_nil_iff (s : string) : Py.split s = [] ↔ allspace s = true.
Proof.
  split; [intros H; by apply split_from_nil in H as [_ ?] | apply split_from_allspace].
Qed.

Lemma windows_nil_iff (words : list string) (k : nat) :
  1 ≤ k → windows words k = [] ↔ words = [].
Proof.
  intros Hk. split; [|intros ->; by apply windows_nil].
  intros H. rewrite <- (concat_windows words k Hk). by rewrite H.
Qed.

End normal_form.

Section read_paper_props.

Context (w : World) (pdf_url : string).

Lemma read_paper_spec (chunk_size : Z) :
  (1 ≤ chunk_size)%Z →
  read_paper w pdf_url chunk_size
  = concat (imap (page_chunks (Z.to_nat chunk_size)) (pdf_pages w pdf_url)).
Proof. intros Hk. unfold read_paper. by rewrite read_pages_spec. Qed.

End read_paper_props.

(** X1.  For [chunk_size >= 1], [read_paper] returns the chunks of page 1,
    then those of page 2, and so on: every chunk carries a page number
    between 1 and the number of pages read, and the page numbers never
    decrease along the list. *)
Theorem read_paper_page_order (w : World) (pdf_url : string) (chunk_size : Z) :
  (1 ≤ chunk_size)%Z →
  read_paper w pdf_url chunk_size
  = concat (imap (page_chunks (Z.to_nat chunk_size)) (pdf_pages w pdf_url))
  ∧ Forall (fun c => (1 ≤ page_number c ≤ Z.of_nat (length (pdf_pages w pdf_url)))%Z)
           (read_paper w pdf_url chunk_size)
  ∧ StronglySorted (fun c d => (page_number c ≤ page_number d)%Z)
           (read_paper w pdf_url chunk_size).
Proof.
  intros Hk. rewrite read_paper_spec; [|done]. split; [done|].
  destruct (pages_from (Z.to_nat chunk_size) (pdf_pages w pdf_url) 0) as [Hb Hs].
  split; [|exact Hs].
  eapply Forall_impl; [exact Hb|]. intros c Hc. simpl in Hc. lia.
Qed.

Lemma read_paper_page_order_witness :
  (1 ≤ 2)%Z
  ∧ read_paper pdf_world "https://arxiv.org/pdf/2401.00001v1" 2
    = [ {| text := "a b"; page_number := 1 |}; {| text := "c"; page_number := 1 |};
        {| text := "d e"; page_number := 3 |} ]
  ∧ Forall (fun c => (1 ≤ page_number c ≤ 3)%Z)
           (read_paper pdf_world "https://arxiv.org/pdf/2401.00001v1" 2).
Proof.
  split; [lia|]. split; [reflexivity|].
  apply (read_paper_page_order pdf_world "https://arxiv.org/pdf/2401.00001v1" 2). lia.
Defined.

(** X2.  For [chunk_size >= 1], every chunk [read_paper] returns has a
    non-empty text of at least one and at most [chunk_size] words, in
    normal form: its words are separated by single spaces and it has no
    whitespace at either end, so [" ".join(text.split())] and
    [text.strip()] both give the text back. *)
Theorem read_paper_chunk_shape (w : World) (pdf_url : string) (chunk_size : Z)
    (c : Chunk) :
  (1 ≤ chunk_size)%Z →
  c ∈ read_paper w pdf_url chunk_size →
  text c ≠ ""
  ∧ 1 ≤ word_count c ≤ Z.to_nat chunk_size
  ∧ Py.join " " (Py.split (text c)) = text c
  ∧ Py.strip (text c) = text c.
Proof.
  intros Hk Hc. rewrite read_paper_spec in Hc; [|done].
  apply elem_of_pages_chunks in Hc as (i & t & ws & Ht & Hws & ->).
  assert (Hwords : Forall is_word ws).
  { pose proof (windows_words _ (Z.to_nat chunk_size) (split_words t)) as H.
    rewrite Forall_forall in H. by apply H. }
  assert (Hlen : 1 ≤ length ws ≤ Z.to_nat chunk_size).
  { pose proof (windows_bounds (Py.split t) (Z.to_nat chunk_size) ltac:(lia)) as H.
    rewrite Forall_forall in H. by apply H. }
  unfold word_count. simpl. rewrite split_join; [|done].
  split; [|split; [done|split; [done | by apply strip_join]]].
  destruct ws as [|x ws]; [simpl in Hlen; lia|].
  inversion Hwords as [|? ? [Hx _] _]; subst.
  destruct x; [done|]. by destruct ws.
Qed.

Lemma read_paper_chunk_shape_witness :
  (1 ≤ 2)%Z
  ∧ {| text := "a b"; page_number := 1 |}
    ∈ read_paper pdf_world "https://arxiv.org/pdf/2401.00001v1" 2
  ∧ 1 ≤ word_count {| text := "a b"; page_number := 1 |} ≤ 2
  ∧ Py.strip "a b" = "a b".
Proof.
  assert (Hin : {| text := "a b"; page_number := 1 |}
                ∈ read_paper pdf_world "https://arxiv.org/pdf/2401.00001v1" 2)
    by (vm_compute; left).
  split; [lia|]. split; [exact Hin|].
  destruct (read_paper_chunk_shape pdf_world "https://arxiv.org/pdf/2401.00001v1" 2
              {| text := "a b"; page_number := 1 |} ltac:(lia) Hin)
    as (_ & H2 & _ & H4).
  split; [exact H2 | exact H4].
Defined.

Lemma pages_word_counts (k : nat) :
  1 ≤ k →
  ∀ pages n,
    sum_list (map word_count (concat (imap (fun i => page_chunks k (n + i)) pages)))
    = sum_list (map (fun t => length (Py.split t)) pages).
Proof.
  intros Hk. induction pages as [|t rest IH]; intros n; [done|].
  simpl. rewrite map_app, sum_list_with_app. f_equal.
  - unfold page_chunks, word_count.
    rewrite word_counts; [|apply windows_words, split_words].
    by rewrite concat_windows.
  - rewrite <- (IH (S n)). f_equal. f_equal. f_equal.
    apply imap_ext. intros i x _. simpl. f_equal. lia.
Qed.

(** X3.  For [chunk_size >= 1], no word of the document is lost or
    repeated: the word counts of the chunks [read_paper] returns add up
    to the word counts of the pages read. *)
Theorem read_paper_keeps_words (w : World) (pdf_url : string) (chunk_size : Z) :
  (1 ≤ chunk_size)%Z →
  sum_list (map word_count (read_paper w pdf_url chunk_size))
  = sum_list (map (fun t => length (Py.split t)) (pdf_pages w pdf_url)).
Proof.
  intros Hk. rewrite read_paper_spec; [|done].
  apply (pages_word_counts (Z.to_nat chunk_size) ltac:(lia) _ 0).
Qed.

Lemma read_paper_keeps_words_witness :
  (1 ≤ 2)%Z
  ∧ sum_list (map word_count
                (read_paper pdf_world "https://arxiv.org/pdf/2401.00001v1" 2)) = 5.
Proof.
  split; [lia|].
  rewrite (read_paper_keeps_words pdf_world "https://arxiv.org/pdf/2401.00001v1" 2);
    [reflexivity | lia].
Defined.

Lemma read_pages_degenerate (k : Z) :
  (k ≤ 0)%Z → ∀ pages n, read_pages pages n k [] = [].
Proof.
  intros Hk. induction pages as [|t rest IH]; intros n; [done|].
  simpl. unfold chunk_page.
  destruct (Py.truthy (Py.strip t)); [|apply IH].
  unfold Py.range0. destruct (Z.eqb_spec k 0); [done|].
  destruct (Z.ltb_spec k 0); [|lia]. simpl. apply IH.
Qed.

(** X4.  With [chunk_size <= 0], [read_paper] returns no chunk, whatever
    the PDF holds: a zero size makes [range] raise on the first page that
    has text, which the method catches, and a negative size makes every
    range empty. *)
Theorem read_paper_degenerate_size (w : World) (pdf_url : string) (chunk_size : Z) :
  (chunk_size ≤ 0)%Z → read_paper w pdf_url chunk_size = [].
Proof. intros Hk. by apply read_pages_degenerate. Qed.

Lemma read_paper_degenerate_size_witness :
  read_paper pdf_world "https://arxiv.org/pdf/2401.00001v1" 0 = []
  ∧ read_paper pdf_world "https://arxiv.org/pdf/2401.00001v1" (-3) = [].
Proof. split; apply read_paper_degenerate_size; lia. Defined.

Lemma pages_chunks_nil (k : nat) :
  1 ≤ k →
  ∀ pages n,
    concat (imap (fun i => page_chunks k (n + i)) pages) = []
    ↔ Forall (fun t => allspace t = true) pages.
Proof.
  intros Hk. induction pages as [|t rest IH]; intros n; simpl.
  - split; [constructor | done].
  - assert (Heq : imap ((fun i => page_chunks k (n + i)) ∘ S) rest
                  = imap (fun i => page_chunks k (S n + i)) rest)
      by (apply imap_ext; intros i x _; simpl; f_equal; lia).
    rewrite Heq, Forall_cons, <- (IH (S n)), <- split_nil_iff,
      <- (windows_nil_iff (Py.split t) k Hk).
    unfold page_chunks. split.
    + intros [H1 H2]%app_eq_nil. split; [|done].
      by apply fmap_nil_inv in H1.
    + intros [-> ->]. done.
Qed.

(** X5.  For [chunk_size >= 1], [read_paper] returns no chunk exactly when
    every page read is empty or whitespace-only (in particular when no page
    could be read at all); these are the papers the crawl skips. *)
Theorem read_paper_empty_iff (w : World) (pdf_url : string) (chunk_size : Z) :
  (1 ≤ chunk_size)%Z →
  read_paper w pdf_url chunk_size = []
  ↔ Forall (fun t => allspace t = true) (pdf_pages w pdf_url).
Proof.
  intros Hk. rewrite read_paper_spec; [|done].
  apply (pages_chunks_nil (Z.to_nat chunk_size) ltac:(lia) _ 0).
Qed.

Lemma read_paper_empty_iff_witness :
  (1 ≤ 500)%Z
  ∧ read_paper (world_of one_paper None ["  "; ""] no_context false false false false)
               "https://arxiv.org/pdf/2401.00001v1" 500 = [].
Proof.
  split; [lia|].
  apply (read_paper_empty_iff
           (world_of one_paper None ["  "; ""] no_context false false false false)
           "https://arxiv.org/pdf/2401.00001v1" 500); [lia|].
  repeat constructor.
Defined.

(** ** [crawl_physics_knowledge], further *)

Section escaping.

Context (w : World).

Lemma store_batch_raised (b : Batch) (total : nat) (kb : KB) :
  (store_batch w b total kb).1 = Raised → encode_raises w (documents b) = true.
Proof.
  unfold store_batch, encode. destruct (encode_raises w (documents b)); [done|].
  by destruct (upsert w b _ (collection kb)).
Qed.

Lemma ingest_paper_raised (paper : Paper) (total : nat) (kb : KB) :
  (ingest_paper w paper total kb).1 = Raised →
  ∃ texts, texts ≠ [] ∧ encode_raises w texts = true.
Proof.
  unfold ingest_paper.
  destruct (read_paper w (p_pdf_url paper) 500) as [|c chunks]; [done|].
  pose proof (store_batch_raised (paper_batch paper (c :: chunks)) total kb) as H1.
  destruct (store_batch w (paper_batch paper (c :: chunks)) total kb) as [[t|] kb1].
  - destruct (repo_of paper) as [repo_url|]; [|done]. simpl.
    destruct (documents (github_batch _ _ _ _)) as [|d ds] eqn:E; [done|].
    intros H%store_batch_raised. rewrite E in H. by exists (d :: ds).
  - intros _. exists (documents (paper_batch paper (c :: chunks))). split; [done|].
    by apply H1.
Qed.

Lemma crawl_loop_raised (papers : list Paper) :
  ∀ total kb, (crawl_loop w papers total kb).1 = Raised →
              ∃ texts, texts ≠ [] ∧ encode_raises w texts = true.
Proof.
  induction papers as [|paper rest IH]; intros total kb; [done|]. simpl.
  pose proof (ingest_paper_raised paper total kb) as H1.
  destruct (ingest_paper w paper total kb) as [[t|] kb1]; [apply IH | by intros _; apply H1].
Qed.

End escaping.

(** X6.  An exception leaves [crawl_physics_knowledge] only when the
    embedding model raises on a non-empty batch of texts.  With an
    embedding model that never raises, the crawl returns a count whatever
    else fails: discovery, download, GitHub requests or upserts. *)
Theorem crawl_raises_only_from_encode (w : World) (topic : string) (max_papers : Z)
    (kb : KB) :
  ((crawl_physics_knowledge w topic max_papers kb).1 = Raised →
   ∃ texts, texts ≠ [] ∧ encode_raises w texts = true)
  ∧ ((∀ texts, encode_raises w texts = false) →
     ∃ n, (crawl_physics_knowledge w topic max_papers kb).1 = Returned n).
Proof.
  assert (H : (crawl_physics_knowledge w topic max_papers kb).1 = Raised →
              ∃ texts, texts ≠ [] ∧ encode_raises w texts = true).
  { unfold crawl_physics_knowledge.
    destruct (search_arxiv w topic max_papers kb).1; [done | apply crawl_loop_raised]. }
  split; [exact H|]. intros Hnever.
  destruct (crawl_physics_knowledge w topic max_papers kb).1 as [n|] eqn:E; [by exists n|].
  destruct (H eq_refl) as (texts & _ & Ht). by rewrite Hnever in Ht.
Qed.

Lemma crawl_raises_only_from_encode_witness :
  (crawl_physics_knowledge no_embedding_world "photometric stereo" 1 empty_kb).1 = Raised
  ∧ (∃ texts, texts ≠ [] ∧ encode_raises no_embedding_world texts = true)
  ∧ (∀ texts, encode_raises no_upsert_world texts = false)
  ∧ ∃ n, (crawl_physics_knowledge no_upsert_world "photometric stereo" 1 empty_kb).1
         = Returned n.
Proof.
  assert (H1 : (crawl_physics_knowledge no_embedding_world "photometric stereo" 1
                  empty_kb).1 = Raised) by (vm_compute; reflexivity).
  assert (H2 : ∀ texts, encode_raises no_upsert_world texts = false) by reflexivity.
  split; [exact H1|]. split; [|split; [exact H2|]].
  - exact (proj1 (crawl_raises_only_from_encode no_embedding_world
                    "photometric stereo" 1 empty_kb) H1).
  - exact (proj2 (crawl_raises_only_from_encode no_upsert_world
                    "photometric stereo" 1 empty_kb) H2).
Defined.

Section counting.

Context (w : World) (Hencode : ∀ texts, encode_raises w texts = false).

Lemma store_batch_count (b : Batch) (total : nat) (kb : KB) :
  (store_batch w b total kb).1
  = Returned (total + batch_stored w (ids b) (length (documents b))).
Proof using Hencode.
  unfold store_batch, encode, upsert, batch_stored. rewrite Hencode.
  destruct (upsert_raises w (ids b)); simpl; [by rewrite Nat.add_0_r | done].
Qed.

Lemma github_batch_length (pid title repo_url : string) (ctx : GithubContext) :
  length (documents (github_batch pid title repo_url ctx))
  = (length (Py.split (readme ctx)) + 499) / 500
    + (if Py.truthy (requirements ctx) then 1 else 0).
Proof.
  rewrite github_batch_windows. unfold requirements_batch.
  assert (Hw : length (windows (Py.split (readme ctx)) 500)
               = (length (Py.split (readme ctx)) + 499) / 500).
  { unfold windows. rewrite length_map, length_seq.
    by replace (length (Py.split (readme ctx)) + 500 - 1)
         with (length (Py.split (readme ctx)) + 499) by lia. }
  destruct (Py.truthy (requirements ctx)); simpl.
  - by rewrite length_app, length_map, Hw.
  - by rewrite length_map, Hw, Nat.add_0_r.
Qed.

Lemma ingest_paper_count (paper : Paper) (total : nat) (kb : KB) :
  (ingest_paper w paper total kb).1 = Returned (total + paper_stored w paper).
Proof using Hencode.
  unfold ingest_paper, paper_stored.
  destruct (read_paper w (p_pdf_url paper) 500) as [|c chunks]; [by rewrite Nat.add_0_r|].
  pose proof (store_batch_count (paper_batch paper (c :: chunks)) total kb) as H1.
  replace (length (documents (paper_batch paper (c :: chunks))))
    with (length (c :: chunks)) in H1 by (unfold paper_batch; simpl; by rewrite length_map).
  destruct (store_batch w (paper_batch paper (c :: chunks)) total kb) as [[t|] kb1];
    [|done].
  cbn [fst] in H1.
  assert (Ht : t = total + batch_stored w (ids (paper_batch paper (c :: chunks)))
                                 (length (c :: chunks))) by congruence.
  clear H1. subst t.
  destruct (repo_of paper) as [repo_url|]; [|cbn [fst]; f_equal; lia].
  cbv zeta. rewrite <- (github_batch_length (paper_id paper) (p_title paper) repo_url).
  destruct (documents (github_batch _ _ _ _)) as [|d ds] eqn:E.
  - cbn [fst length]. f_equal.
    assert (Hz : ∀ l, batch_stored w l 0 = 0)
      by (intros l; unfold batch_stored; by destruct (upsert_raises w l)).
    rewrite Hz. lia.
  - rewrite store_batch_count, E. f_equal. lia.
Qed.

Lemma crawl_loop_count (papers : list Paper) :
  ∀ total kb, (crawl_loop w papers total kb).1
              = Returned (total + sum_list (map (paper_stored w) papers)).
Proof using Hencode.
  induction papers as [|paper rest IH]; intros total kb; simpl.
  - by rewrite Nat.add_0_r.
  - pose proof (ingest_paper_count paper total kb) as H1.
    destruct (ingest_paper w paper total kb) as [[t|] kb1]; [|done].
    simpl in H1. injection H1 as ->. rewrite IH. f_equal. lia.
Qed.

End counting.

(** X7.  With an embedding model that never raises, the count
    [crawl_physics_knowledge] returns is the sum, over the papers found, of
    what each one stores: nothing for a paper without chunks (its
    repository is not even fetched); otherwise its chunks, plus, for a
    paper with a repository, one entry per started block of 500 README
    words and one for a non-empty manifest; a batch whose upsert raises
    counts for nothing and does not stop the crawl. *)
Theorem crawl_counts_stored_batches (w : World) (topic : string) (max_papers : Z)
    (kb : KB) :
  (∀ texts, encode_raises w texts = false) →
  (crawl_physics_knowledge w topic max_papers kb).1
  = Returned (sum_list (map (fun q => paper_stored w (paper_of w q))
                            (yielded (arxiv_results w topic max_papers)))).
Proof.
  intros He. unfold crawl_physics_knowledge. rewrite search_arxiv_eq. cbn [fst snd].
  rewrite <- (map_map (paper_of w) (paper_stored w)).
  destruct (map (paper_of w) _) as [|p ps] eqn:E; [done|].
  by rewrite crawl_loop_count.
Qed.

Lemma crawl_counts_stored_batches_witness :
  (∀ texts, encode_raises repo_world texts = false)
  ∧ (crawl_physics_knowledge repo_world "photometric stereo" 1 empty_kb).1 = Returned 4
  ∧ (crawl_physics_knowledge no_upsert_world "photometric stereo" 1 empty_kb).1
    = Returned 0.
Proof.
  split; [reflexivity|]. split.
  - rewrite (crawl_counts_stored_batches repo_world "photometric stereo" 1 empty_kb);
      [vm_compute; reflexivity | reflexivity].
  - rewrite (crawl_counts_stored_batches no_upsert_world "photometric stereo" 1 empty_kb);
      [vm_compute; reflexivity | reflexivity].
Defined.

Section growth.

Context (w : World).

Lemma size_fold_put (es : list (string * Entry)) :
  ∀ c, size (fold_left put es c) ≤ size c + length es.
Proof.
  induction es as [|ie es IH]; intros c; simpl; [lia|].
  specialize (IH (put c ie)). unfold put in *.
  pose proof (map_size_insert ie.1 ie.2 c) as Hs.
  destruct (c !! ie.1); unfold id in Hs; lia.
Qed.

Lemma length_entries (b : Batch) (embeddings : list (list pyfloat)) :
  length (entries b embeddings) ≤ length (documents b).
Proof.
  unfold entries. rewrite length_zip, length_zip_with, length_zip. lia.
Qed.

Lemma store_batch_size (b : Batch) (total total' : nat) (kb kb' : KB) :
  store_batch w b total kb = (Returned total', kb') →
  total ≤ total'
  ∧ size (collection kb') + total ≤ size (collection kb) + total'.
Proof.
  unfold store_batch, upsert.
  destruct (encode w (documents b)) as [embeddings|]; [|done].
  destruct (upsert_raises w (ids b)); intros [= <- <-]; simpl; [lia|].
  pose proof (size_fold_put (entries b embeddings) (collection kb)).
  pose proof (length_entries b embeddings). lia.
Qed.

Lemma ingest_paper_size (paper : Paper) (total total' : nat) (kb kb' : KB) :
  ingest_paper w paper total kb = (Returned total', kb') →
  total ≤ total'
  ∧ size (collection kb') + total ≤ size (collection kb) + total'.
Proof.
  unfold ingest_paper.
  destruct (read_paper w (p_pdf_url paper) 500) as [|c chunks];
    [intros [= <- <-]; lia|].
  destruct (store_batch w (paper_batch paper (c :: chunks)) total kb)
    as [[t|] kb1] eqn:E1; [|done].
  apply store_batch_size in E1.
  destruct (repo_of paper) as [repo_url|]; [|intros [= <- <-]; lia].
  cbv zeta. destruct (documents (github_batch _ _ _ _)); [intros [= <- <-]; lia|].
  intros E2%store_batch_size. lia.
Qed.

Lemma crawl_loop_size (papers : list Paper) :
  ∀ total total' kb kb',
    crawl_loop w papers total kb = (Returned total', kb') →
    total ≤ total'
    ∧ size (collection kb') + total ≤ size (collection kb) + total'.
Proof.
  induction papers as [|paper rest IH]; intros total total' kb kb'; simpl.
  - intros [= <- <-]. lia.
  - destruct (ingest_paper w paper total kb) as [[t|] kb1] eqn:E1; [|done].
    apply ingest_paper_size in E1. intros E2%IH. lia.
Qed.

End growth.

(** X8.  A crawl never removes anything: every chunk id of the collection
    and every paper id of the cache is still there afterwards, also when
    the crawl ends with an exception.  When it returns a count, the
    collection has grown by at most that count. *)
Theorem crawl_only_adds (w : World) (topic : string) (max_papers : Z) (kb : KB) :
  (∀ i, is_Some (collection kb !! i) →
        is_Some (collection (crawl_physics_knowledge w topic max_papers kb).2 !! i))
  ∧ (∀ sid, is_Some (_paper_metadata kb !! sid) →
       is_Some (_paper_metadata (crawl_physics_knowledge w topic max_papers kb).2 !! sid))
  ∧ (∀ n, (crawl_physics_knowledge w topic max_papers kb).1 = Returned n →
          count (collection (crawl_physics_knowledge w topic max_papers kb).2)
          ≤ count (collection kb) + n).
Proof.
  destruct (crawl_framed w topic max_papers) as (o & Wc & Wm & H).
  split; [|split].
  - intros i Hi. rewrite H. simpl. apply lookup_union_is_Some. by right.
  - intros sid Hs. rewrite H. simpl. apply lookup_union_is_Some. by right.
  - intros n. unfold crawl_physics_knowledge, count.
    assert (Hc : collection (search_arxiv w topic max_papers kb).2 = collection kb)
      by done.
    destruct (search_arxiv w topic max_papers kb).1 as [|p ps].
    + intros [= <-]. simpl. lia.
    + destruct (crawl_loop w (p :: ps) 0 (search_arxiv w topic max_papers kb).2)
        as [o' kb'] eqn:E.
      simpl. intros ->. apply crawl_loop_size in E. rewrite Hc in E. lia.
Qed.

Lemma crawl_only_adds_witness :
  (crawl_physics_knowledge repo_world "photometric stereo" 1 stored_kb).1 = Returned 4
  ∧ count (collection stored_kb) = 1
  ∧ count (collection (crawl_physics_knowledge repo_world "photometric stereo" 1
                         stored_kb).2) = 4
  ∧ count (collection (crawl_physics_knowledge repo_world "photometric stereo" 1
                         stored_kb).2) ≤ count (collection stored_kb) + 4.
Proof.
  assert (H : (crawl_physics_knowledge repo_world "photometric stereo" 1 stored_kb).1
              = Returned 4) by (vm_compute; reflexivity).
  split; [exact H|]. split; [vm_compute; reflexivity|]. split; [vm_compute; reflexivity|].
  exact (proj2 (proj2 (crawl_only_adds repo_world "photometric stereo" 1 stored_kb)) 4 H).
Defined.

(** ** [search_arxiv] and [get_reference], further *)

Section cache_update.

Context (w : World).

Lemma cache_fold_other (sid : string) (found : list ArxivResult) :
  ∀ m : gmap string CachedPaper,
    (∀ q, q ∈ found → ar_short_id q ≠ sid) →
    fold_left (cache_step w) found m !! sid = m !! sid.
Proof.
  induction found as [|q rest IH]; intros m Hne; [done|]. simpl.
  rewrite IH; [|intros q' Hq'; apply Hne; by right].
  unfold cache_step. apply lookup_insert_ne, Hne. left.
Qed.

Lemma cache_fold_last (l1 l2 : list ArxivResult) (q : ArxivResult)
    (m : gmap string CachedPaper) :
  (∀ q', q' ∈ l2 → ar_short_id q' ≠ ar_short_id q) →
  fold_left (cache_step w) (l1 ++ q :: l2) m !! ar_short_id q = Some (cached_of w q).
Proof.
  intros Hne. rewrite fold_left_app. simpl. rewrite cache_fold_other; [|done].
  unfold cache_step at 1. apply lookup_insert_eq.
Qed.

End cache_update.

(** X9.  [search_arxiv] returns one dictionary per result the ArXiv client
    yielded, in order (also when the iteration then ended with an exception),
    and does not touch the collection.  In the cache, every id yielded is
    bound afterwards to the title, url, summary and repository of the last
    result with that id, and every other id keeps what it had. *)
Theorem search_arxiv_updates_cache (w : World) (query : string) (max_results : Z)
    (kb : KB) :
  let found := yielded (arxiv_results w query max_results) in
  let r := search_arxiv w query max_results kb in
  r.1 = map (paper_of w) found
  ∧ collection r.2 = collection kb
  ∧ (∀ l1 q l2, found = l1 ++ q :: l2 →
       (∀ q', q' ∈ l2 → ar_short_id q' ≠ ar_short_id q) →
       _paper_metadata r.2 !! ar_short_id q = Some (cached_of w q))
  ∧ (∀ sid, (∀ q, q ∈ found → ar_short_id q ≠ sid) →
       _paper_metadata r.2 !! sid = _paper_metadata kb !! sid).
Proof.
  intros found r. subst r. unfold search_arxiv. rewrite fold_search_step.
  fold found. cbn [fst snd collection _paper_metadata].
  split; [done|]. split; [done|]. split.
  - intros l1 q l2 -> Hne. by apply cache_fold_last.
  - intros sid Hne. by apply cache_fold_other.
Qed.

Lemma search_arxiv_updates_cache_witness :
  let r := search_arxiv pdf_world "photometric stereo" 5 cached_kb in
  map paper_id r.1 = ["2401.00001v1"]
  ∧ (c_title <$> _paper_metadata r.2 !! "2401.00001v1") = Some "Photometric stereo"
  ∧ _paper_metadata r.2 !! "2402.00002v1" = _paper_metadata cached_kb !! "2402.00002v1".
Proof.
  intros r.
  destruct (search_arxiv_updates_cache pdf_world "photometric stereo" 5 cached_kb)
    as (H1 & _ & H3 & H4).
  split; [subst r; by rewrite H1|]. split.
  - subst r.
    assert (H : _paper_metadata
                  (search_arxiv pdf_world "photometric stereo" 5 cached_kb).2
                  !! "2401.00001v1"
                = Some (cached_of pdf_world
                          {| ar_title := "Photometric stereo";
                             ar_pdf_url := "https://arxiv.org/pdf/2401.00001v1";
                             ar_summary := "We estimate normals.";
                             ar_short_id := "2401.00001v1" |})).
    { apply (H3 [] _ [] eq_refl). intros q' Hq'. by apply elem_of_nil in Hq'. }
    by rewrite H.
  - apply H4. intros q Hq. apply list_elem_of_singleton in Hq. by subst q.
Defined.

(** X10.  [get_reference] returns [None] exactly when the id is not in
    the cache and the store does not help: either its [get] call raises
    or no entry of the collection has the id as [source_id]. *)
Theorem get_reference_none_iff (w : World) (sid : string) (kb : KB) :
  get_reference w sid kb = None
  ↔ _paper_metadata kb !! sid = None
    ∧ (get_raises w sid = true ∨ no_source sid (collection kb)).
Proof.
  unfold get_reference. split.
  - destruct (_paper_metadata kb !! sid) as [cached|]; [done|].
    intros H. split; [done|].
    destruct (get_raises w sid) eqn:Hg; [by left|]. right.
    intros i e Hie He.
    destruct (collection_get_found w sid (collection kb) Hg) as (j & e' & l & _ & _ & Hl);
      [by exists i, e|].
    by rewrite Hl in H.
  - intros [-> [Hg|Hno]].
    + unfold collection_get. by rewrite Hg.
    + by destruct (collection_get_none w sid (collection kb) Hno) as [-> | ->].
Qed.

Lemma get_reference_none_iff_witness :
  get_reference (world_of nothing_found None [] no_context false false false true)
                "2401.00001v1" stored_kb = None
  ∧ get_reference (world_of nothing_found None [] no_context false false false false)
                  "2401.00001v1" stored_kb ≠ None.
Proof.
  split.
  - apply get_reference_none_iff. split; [reflexivity | by left].
  - intros H. apply get_reference_none_iff in H as [_ [H|H]]; [discriminate H|].
    refine (H "2401.00001v1_chunk_0" _ _ _); [vm_compute; reflexivity|].
    vm_compute. reflexivity.
Defined.

(** ** Chunk ids across papers *)

Section id_text.

Lemma chars_app (a b : string) :
  String.list_ascii_of_string (a +:+ b)
  = String.list_ascii_of_string a ++ String.list_ascii_of_string b.
Proof.
  induction a as [|c a IH]; [done|]. rewrite str_app_cons. simpl. by rewrite IH.
Qed.

Lemma rchars_app (a b : string) : rchars (a +:+ b) = rchars b ++ rchars a.
Proof. unfold rchars. by rewrite chars_app, reverse_app. Qed.

Lemma rchars_inj (a b : string) : rchars a = rchars b → a = b.
Proof.
  unfold rchars. intros H%(inj reverse).
  by rewrite <- (String.string_of_list_ascii_of_string a),
             <- (String.string_of_list_ascii_of_string b), H.
Qed.

Lemma pretty_N_char_digit (x : N) : is_digit (pretty_N_char x) = true.
Proof. unfold pretty_N_char. by repeat case_match. Qed.

Lemma pretty_N_go_digits (x : N) :
  ∀ s, Forall (fun c => is_digit c = true) (String.list_ascii_of_string s) →
       Forall (fun c => is_digit c = true)
              (String.list_ascii_of_string (pretty_N_go x s)).
Proof.
  induction (N.lt_wf_0 x) as [x _ IH]. intros s Hs.
  destruct (decide (x = 0)%N) as [->|Hx]; [by rewrite pretty_N_go_0|].
  rewrite pretty_N_go_step; [|lia]. apply IH.
  - apply N.div_lt; lia.
  - simpl. constructor; [apply pretty_N_char_digit | done].
Qed.

Lemma pretty_nat_digits (n : nat) :
  Forall (fun c => is_digit c = true) (rchars (pretty n)).
Proof.
  unfold rchars. apply Forall_reverse.
  unfold pretty, pretty_nat, pretty, pretty_N.
  destruct (decide (N.of_nat n = 0)%N); [by repeat constructor|].
  apply pretty_N_go_digits. constructor.
Qed.

Lemma digits_then_other (d1 d2 x1 x2 : list ascii) :
  Forall (fun c => is_digit c = true) d1 →
  Forall (fun c => is_digit c = true) d2 →
  (∃ c l, x1 = c :: l ∧ is_digit c = false) →
  (∃ c l, x2 = c :: l ∧ is_digit c = false) →
  d1 ++ x1 = d2 ++ x2 → d1 = d2 ∧ x1 = x2.
Proof.
  intros H1. revert d2. induction H1 as [|a d1 Ha _ IH];
    intros d2 H2 (c1 & l1 & -> & Hc1) (c2 & l2 & -> & Hc2) Heq.
  - destruct H2 as [|b d2 Hb _]; [done|].
    simpl in Heq. injection Heq as -> _. congruence.
  - destruct H2 as [|b d2 Hb H2].
    + simpl in Heq. injection Heq as -> _. congruence.
    + simpl in Heq. injection Heq as -> Heq.
      destruct (IH d2 H2) as [-> ?]; [by eexists _, _ | by eexists _, _ | done |].
      done.
Qed.

(** The reversed characters of a suffix: digits first, then a text that
    starts with a character that is no digit. *)
Lemma rchars_suffix (a : string) (s : id_suffix) :
  ∃ d x, rchars (a +:+ suffix_text s) = d ++ x ++ rchars a
         ∧ Forall (fun c => is_digit c = true) d
         ∧ match s with
           | ChunkSuffix n => d = rchars (pretty n) ∧ x = rchars "_chunk_"
           | ReadmeSuffix n => d = rchars (pretty n) ∧ x = rchars "_github_readme_"
           | RequirementsSuffix => d = [] ∧ x = rchars "_github_requirements"
           end.
Proof.
  destruct s as [n|n|]; simpl.
  - exists (rchars (pretty n)), (rchars "_chunk_").
    rewrite !rchars_app, <- app_assoc. split; [done|]. split; [apply pretty_nat_digits | done].
  - exists (rchars (pretty n)), (rchars "_github_readme_").
    rewrite !rchars_app, <- app_assoc. split; [done|]. split; [apply pretty_nat_digits | done].
  - exists [], (rchars "_github_requirements").
    rewrite rchars_app. split; [done|]. split; [constructor | done].
Qed.

End id_text.

Lemma chunk_id_owner (a b : string) (s1 s2 : id_suffix) :
  a +:+ suffix_text s1 = b +:+ suffix_text s2 → a = b ∧ s1 = s2.
Proof.
  intros Heq. apply (f_equal rchars) in Heq.
  destruct (rchars_suffix a s1) as (d1 & x1 & E1 & Hd1 & Hs1).
  destruct (rchars_suffix b s2) as (d2 & x2 & E2 & Hd2 & Hs2).
  rewrite E1, E2 in Heq.
  apply digits_then_other in Heq as [Hd Hx]; [|done|done|..].
  - destruct s1 as [n1|n1|], s2 as [n2|n2|];
      destruct Hs1 as [Hn1 ->], Hs2 as [Hn2 ->]; rewrite Hn1, Hn2 in Hd;
      clear Hn1 Hn2 E1 E2 Hd1 Hd2;
      try (vm_compute in Hx; discriminate Hx).
    + apply app_inv_head in Hx. apply rchars_inj in Hx, Hd.
      apply (inj pretty) in Hd. by subst.
    + apply app_inv_head in Hx. apply rchars_inj in Hx, Hd.
      apply (inj pretty) in Hd. by subst.
    + apply app_inv_head in Hx. apply rchars_inj in Hx. by subst.
  - destruct s1; destruct Hs1 as [_ ->]; vm_compute; by eexists _, _.
  - destruct s2; destruct Hs2 as [_ ->]; vm_compute; by eexists _, _.
Qed.

Lemma paper_batch_owned (paper : Paper) (chunks : list Chunk) :
  owned_batch (paper_id paper) (paper_batch paper chunks).
Proof.
  split.
  - rewrite paper_batch_ids. apply Forall_map, Forall_forall. intros j _.
    by exists (ChunkSuffix j).
  - unfold paper_batch. simpl. apply Forall_map, Forall_forall. intros c _.
    unfold has_source, paper_meta. simpl. apply lookup_insert_eq.
Qed.

Lemma github_batch_owned (pid title repo_url : string) (ctx : GithubContext) :
  owned_batch pid (github_batch pid title repo_url ctx).
Proof.
  split.
  - rewrite github_batch_ids. apply Forall_app. split.
    + apply Forall_map, Forall_forall. intros j _. by exists (ReadmeSuffix j).
    + destruct (Py.truthy (requirements ctx)); [|constructor].
      constructor; [|constructor]. by exists RequirementsSuffix.
  - rewrite github_batch_windows. unfold requirements_batch.
    assert (Hr : Forall (has_source pid)
                   (map (fun _ : list string =>
                           github_meta pid (title +:+ " - GitHub README") repo_url)
                        (windows (Py.split (readme ctx)) 500))).
    { apply Forall_map, Forall_forall. intros c _. apply lookup_insert_eq. }
    destruct (Py.truthy (requirements ctx)); simpl; [|done].
    apply Forall_app. split; [done|]. constructor; [|constructor].
    apply lookup_insert_eq.
Qed.

(** X11.  Chunk ids generated for papers with different ids are different,
    whatever the papers' chunks and repositories are: ingesting one paper
    never overwrites an entry that belongs to another. *)
Theorem chunk_ids_never_shared (p1 p2 : Paper) (chunks1 chunks2 : list Chunk)
    (repo1 repo2 : string) (ctx1 ctx2 : GithubContext) (i : string) :
  paper_id p1 ≠ paper_id p2 →
  i ∈ paper_ids p1 chunks1 repo1 ctx1 →
  i ∉ paper_ids p2 chunks2 repo2 ctx2.
Proof.
  intros Hne H1 H2.
  assert (Hform : ∀ p chunks repo ctx, i ∈ paper_ids p chunks repo ctx →
                    ∃ s, i = paper_id p +:+ suffix_text s).
  { intros p chunks repo ctx Hi. unfold paper_ids in Hi.
    destruct (paper_batch_owned p chunks) as [Ha _].
    destruct (github_batch_owned (paper_id p) (p_title p) repo ctx) as [Hb _].
    rewrite Forall_forall in Ha, Hb.
    apply elem_of_app in Hi as [Hi|Hi]; [by apply Ha | by apply Hb]. }
  apply Hform in H1 as [s1 E1]. apply Hform in H2 as [s2 E2].
  rewrite E1 in E2. by apply chunk_id_owner in E2 as [? _].
Qed.

Lemma chunk_ids_never_shared_witness :
  let p1 := paper_of repo_world
              {| ar_title := "A"; ar_pdf_url := "u"; ar_summary := "";
                 ar_short_id := "2401.00001v1" |} in
  let p2 := paper_of repo_world
              {| ar_title := "B"; ar_pdf_url := "v"; ar_summary := "";
                 ar_short_id := "2401.00001v1_chunk_0" |} in
  "2401.00001v1_chunk_0_chunk_1" ∈ paper_ids p2 (read_paper repo_world "v" 1) "" no_context
  ∧ "2401.00001v1_chunk_0_chunk_1" ∉ paper_ids p1 (read_paper repo_world "u" 1) "" no_context.
Proof.
  intros p1 p2.
  assert (H : "2401.00001v1_chunk_0_chunk_1"
              ∈ paper_ids p2 (read_paper repo_world "v" 1) "" no_context).
  { vm_compute. right. left. }
  split; [exact H|].
  apply (chunk_ids_never_shared p2 p1 (read_paper repo_world "v" 1)
           (read_paper repo_world "u" 1) "" "" no_context no_context);
    [discriminate | exact H].
Defined.

(** ** What the crawl leaves in the store *)

Section written.

Context (w : World).

Lemma elem_of_entries (b : Batch) (embeddings : list (list pyfloat))
    (i : string) (e : Entry) :
  (i, e) ∈ entries b embeddings → i ∈ ids b ∧ metadata e ∈ metadatas b.
Proof.
  intros Hin. split; [by apply elem_of_zip_l in Hin|].
  apply elem_of_zip_r in Hin.
  apply elem_of_zip_with in Hin as (d & [em m] & -> & _ & Hm). simpl.
  by apply elem_of_zip_r in Hm.
Qed.

Lemma fold_put_all (P : Entry → Prop) (c0 : gmap string Entry)
    (es : list (string * Entry)) :
  Forall (fun ie => P ie.2) es →
  ∀ c, (∀ i e, c !! i = Some e → c0 !! i = Some e ∨ P e) →
       ∀ i e, fold_left put es c !! i = Some e → c0 !! i = Some e ∨ P e.
Proof.
  induction 1 as [|ie es Hie _ IH]; intros c Hc; [done|].
  simpl. apply IH. intros i e. unfold put.
  destruct (decide (ie.1 = i)) as [->|Hne].
  - rewrite lookup_insert_eq. intros [= <-]. by right.
  - rewrite lookup_insert_ne; [|done]. apply Hc.
Qed.

Lemma store_batch_all (P : Entry → Prop) (c0 : gmap string Entry) (b : Batch)
    (total : nat) (kb : KB) :
  Forall (fun m => ∀ e, metadata e = m → P e) (metadatas b) →
  (∀ i e, collection kb !! i = Some e → c0 !! i = Some e ∨ P e) →
  ∀ i e, collection (store_batch w b total kb).2 !! i = Some e →
         c0 !! i = Some e ∨ P e.
Proof.
  intros Hb Hkb. unfold store_batch, upsert.
  destruct (encode w (documents b)) as [embeddings|]; [|done].
  destruct (upsert_raises w (ids b)); [done|]. simpl.
  apply fold_put_all; [|done].
  apply Forall_forall. intros [i e] [_ Hm]%elem_of_entries. simpl.
  rewrite Forall_forall in Hb. by apply (Hb _ Hm).
Qed.

Lemma read_paper_pages_from_1 (pdf_url : string) (c : Chunk) :
  c ∈ read_paper w pdf_url 500 → (1 ≤ page_number c)%Z.
Proof.
  intros Hc. rewrite read_paper_spec in Hc; [|lia].
  destruct (pages_from (Z.to_nat 500) (pdf_pages w pdf_url) 0) as [Hb _].
  rewrite Forall_forall in Hb. specialize (Hb c Hc). simpl in Hb. lia.
Qed.

Lemma paper_batch_crawl_meta (q : ArxivResult) (chunks : list Chunk) :
  (∀ c, c ∈ chunks → (1 ≤ page_number c)%Z) →
  Forall (crawl_meta w q) (metadatas (paper_batch (paper_of w q) chunks)).
Proof.
  intros Hp. unfold paper_batch. simpl. apply Forall_map, Forall_forall.
  intros c Hc. left. exists (page_number c). split; [by apply Hp | done].
Qed.

Lemma github_batch_crawl_meta (q : ArxivResult) (repo_url : string)
    (ctx : GithubContext) :
  repo_of (paper_of w q) = Some repo_url →
  Forall (crawl_meta w q)
         (metadatas (github_batch (ar_short_id q) (ar_title q) repo_url ctx)).
Proof.
  intros Hr. rewrite github_batch_windows. unfold requirements_batch.
  assert (H1 : Forall (crawl_meta w q)
                 (map (fun _ : list string =>
                         github_meta (ar_short_id q) (ar_title q +:+ " - GitHub README")
                                     repo_url)
                      (windows (Py.split (readme ctx)) 500))).
  { apply Forall_map, Forall_forall. intros c _. right. exists repo_url. by split; [|left]. }
  destruct (Py.truthy (requirements ctx)); simpl; [|done].
  apply Forall_app. split; [done|]. constructor; [|constructor].
  right. exists repo_url. by split; [|right].
Qed.

Context (found : list ArxivResult) (c0 : gmap string Entry).

Lemma ingest_paper_written (q : ArxivResult) (total : nat) (kb : KB) :
  q ∈ found →
  (∀ i e, collection kb !! i = Some e →
          c0 !! i = Some e ∨ ∃ q', q' ∈ found ∧ crawl_meta w q' (metadata e)) →
  ∀ i e, collection (ingest_paper w (paper_of w q) total kb).2 !! i = Some e →
         c0 !! i = Some e ∨ ∃ q', q' ∈ found ∧ crawl_meta w q' (metadata e).
Proof.
  intros Hq Hkb. unfold ingest_paper.
  destruct (read_paper w (p_pdf_url (paper_of w q)) 500) as [|c chunks] eqn:Er; [done|].
  assert (H1 : ∀ i e,
             collection (store_batch w (paper_batch (paper_of w q) (c :: chunks))
                                     total kb).2 !! i = Some e →
             c0 !! i = Some e ∨ ∃ q', q' ∈ found ∧ crawl_meta w q' (metadata e)).
  { apply store_batch_all; [|done].
    eapply Forall_impl; [apply paper_batch_crawl_meta|].
    - intros c' Hc'. apply (read_paper_pages_from_1 (ar_pdf_url q)).
      simpl in Er. by rewrite Er.
    - intros m Hm e <-. by exists q. }
  destruct (store_batch w (paper_batch (paper_of w q) (c :: chunks)) total kb)
    as [[t|] kb1]; [|done].
  simpl in H1. destruct (repo_of (paper_of w q)) as [repo_url|] eqn:Hr; [|done].
  cbv zeta. destruct (documents _); [done|].
  apply store_batch_all; [|done].
  eapply Forall_impl; [by apply github_batch_crawl_meta|].
  intros m Hm e <-. by exists q.
Qed.

Lemma crawl_loop_written (qs : list ArxivResult) :
  (∀ q, q ∈ qs → q ∈ found) →
  ∀ total kb,
    (∀ i e, collection kb !! i = Some e →
            c0 !! i = Some e ∨ ∃ q', q' ∈ found ∧ crawl_meta w q' (metadata e)) →
    ∀ i e, collection (crawl_loop w (map (paper_of w) qs) total kb).2 !! i = Some e →
           c0 !! i = Some e ∨ ∃ q', q' ∈ found ∧ crawl_meta w q' (metadata e).
Proof.
  induction qs as [|q rest IH]; intros Hqs total kb Hkb; [done|]. simpl.
  pose proof (ingest_paper_written q total kb ltac:(apply Hqs; left) Hkb) as H1.
  destruct (ingest_paper w (paper_of w q) total kb) as [[t|] kb1]; [|done].
  apply IH; [|done]. intros q' Hq'. apply Hqs. by right.
Qed.

End written.

Lemma crawl_written (w : World) (topic : string) (max_papers : Z)
    (kb : KB) (i : string) (e : Entry) :
  collection (crawl_physics_knowledge w topic max_papers kb).2 !! i = Some e →
  collection kb !! i = Some e
  ∨ ∃ q, q ∈ yielded (arxiv_results w topic max_papers) ∧ crawl_meta w q (metadata e).
Proof.
  unfold crawl_physics_knowledge. rewrite search_arxiv_eq. cbn [fst snd].
  destruct (map (paper_of w) _) as [|p ps] eqn:E; [by left|].
  rewrite <- E.
  apply (crawl_loop_written w (yielded (arxiv_results w topic max_papers))
           (collection kb)); [done|]. simpl. by left.
Qed.

(** X12.  After a crawl, however it ended, every entry of the collection
    is either an entry it held before, unchanged, or carries the metadata
    the crawl writes for one of the papers found: source id, title, url
    and the type ["paper_content"] with a page number from 1 on, or the
    type ["implementation_details"] with page 0, the repository url and
    the title extended by [" - GitHub README"] or [" - Dependencies"]. *)
Theorem crawl_entries_metadata (w : World) (topic : string) (max_papers : Z)
    (kb : KB) (i : string) (e : Entry) :
  collection (crawl_physics_knowledge w topic max_papers kb).2 !! i = Some e →
  collection kb !! i = Some e
  ∨ ∃ q, q ∈ yielded (arxiv_results w topic max_papers)
         ∧ ((∃ page, (1 ≤ page)%Z
               ∧ metadata e = paper_meta (ar_short_id q) (ar_title q) page (ar_pdf_url q))
            ∨ (∃ repo_url, repo_of (paper_of w q) = Some repo_url
                 ∧ (metadata e = github_meta (ar_short_id q)
                                   (ar_title q +:+ " - GitHub README") repo_url
                    ∨ metadata e = github_meta (ar_short_id q)
                                     (ar_title q +:+ " - Dependencies") repo_url))).
Proof.
  unfold crawl_physics_knowledge. rewrite search_arxiv_eq. cbn [fst snd].
  destruct (map (paper_of w) _) as [|p ps] eqn:E; [by left|].
  rewrite <- E.
  apply (crawl_loop_written w (yielded (arxiv_results w topic max_papers))
           (collection kb)); [done|]. simpl. by left.
Qed.

Lemma crawl_entries_metadata_witness :
  ∃ e, collection (crawl_physics_knowledge repo_world "photometric stereo" 1
                     empty_kb).2 !! "2401.00001v1_github_requirements" = Some e
       ∧ (collection empty_kb !! "2401.00001v1_github_requirements" = Some e
          ∨ ∃ q, q ∈ yielded (arxiv_results repo_world "photometric stereo" 1)
                 ∧ ((∃ page, (1 ≤ page)%Z
                       ∧ metadata e = paper_meta (ar_short_id q) (ar_title q) page
                                                 (ar_pdf_url q))
                    ∨ (∃ repo_url, repo_of (paper_of repo_world q) = Some repo_url
                         ∧ (metadata e = github_meta (ar_short_id q)
                                           (ar_title q +:+ " - GitHub README") repo_url
                            ∨ metadata e = github_meta (ar_short_id q)
                                             (ar_title q +:+ " - Dependencies")
                                             repo_url)))).
Proof.
  destruct (collection (crawl_physics_knowledge repo_world "photometric stereo" 1
                          empty_kb).2 !! "2401.00001v1_github_requirements")
    as [e|] eqn:E; [|by vm_compute in E].
  exists e. split; [done|].
  exact (crawl_entries_metadata repo_world "photometric stereo" 1 empty_kb _ _ E).
Defined.

Section restart.

Context (w : World) (sid : string) (s0 : id_suffix).

Lemma fold_put_key (pid : string) (es : list (string * Entry)) :
  Forall (fun ie => (∃ s, ie.1 = pid +:+ suffix_text s)
                    ∧ has_source pid (metadata ie.2)) es →
  ∀ c, key_has_source sid (sid +:+ suffix_text s0) c →
       key_has_source sid (sid +:+ suffix_text s0) (fold_left put es c).
Proof.
  induction 1 as [|ie es [[s Hi] Hm] _ IH]; intros c Hc; [done|].
  simpl. apply IH. unfold put, key_has_source.
  destruct (decide (ie.1 = sid +:+ suffix_text s0)) as [Heq|Hne].
  - rewrite Heq, lookup_insert_eq. exists ie.2. split; [done|].
    rewrite Hi in Heq. apply chunk_id_owner in Heq as [-> _]. done.
  - rewrite lookup_insert_ne; done.
Qed.

Lemma entries_owned (pid : string) (b : Batch) (embeddings : list (list pyfloat)) :
  owned_batch pid b →
  Forall (fun ie => (∃ s, ie.1 = pid +:+ suffix_text s)
                    ∧ has_source pid (metadata ie.2))
         (entries b embeddings).
Proof.
  intros [Hi Hm]. rewrite Forall_forall in Hi. rewrite Forall_forall in Hm.
  apply Forall_forall. intros [i e] [H1 H2]%elem_of_entries. simpl.
  split; [by apply Hi | by apply Hm].
Qed.

Lemma store_batch_key (pid : string) (b : Batch) (total : nat) (kb : KB) :
  owned_batch pid b →
  key_has_source sid (sid +:+ suffix_text s0) (collection kb) →
  key_has_source sid (sid +:+ suffix_text s0) (collection (store_batch w b total kb).2).
Proof.
  intros Hb Hkb. unfold store_batch, upsert.
  destruct (encode w (documents b)) as [embeddings|]; [|done].
  destruct (upsert_raises w (ids b)); [done|]. simpl.
  apply (fold_put_key pid); [by apply entries_owned | done].
Qed.

Lemma ingest_paper_key (paper : Paper) (total : nat) (kb : KB) :
  key_has_source sid (sid +:+ suffix_text s0) (collection kb) →
  key_has_source sid (sid +:+ suffix_text s0)
                 (collection (ingest_paper w paper total kb).2).
Proof.
  intros Hkb. unfold ingest_paper.
  destruct (read_paper w (p_pdf_url paper) 500) as [|c chunks]; [done|].
  pose proof (store_batch_key (paper_id paper) (paper_batch paper (c :: chunks))
                total kb (paper_batch_owned _ _) Hkb) as H1.
  destruct (store_batch w (paper_batch paper (c :: chunks)) total kb) as [[t|] kb1];
    [|done].
  simpl in H1. destruct (repo_of paper) as [repo_url|]; [|done].
  cbv zeta. destruct (documents _); [done|].
  apply (store_batch_key (paper_id paper)); [apply github_batch_owned | done].
Qed.

Lemma fold_put_first (es : list (string * Entry)) :
  Forall (fun ie => (∃ s, ie.1 = sid +:+ suffix_text s)
                    ∧ has_source sid (metadata ie.2)) es →
  ∀ c, (∃ e, (sid +:+ suffix_text s0, e) ∈ es)
       ∨ key_has_source sid (sid +:+ suffix_text s0) c →
       key_has_source sid (sid +:+ suffix_text s0) (fold_left put es c).
Proof.
  induction 1 as [|ie es [Hi Hm] Hes IH]; intros c Hc.
  - destruct Hc as [[e He]|Hc]; [by apply elem_of_nil in He | done].
  - simpl. apply IH.
    destruct (decide (ie.1 = sid +:+ suffix_text s0)) as [Heq|Hne].
    + right. exists ie.2. unfold put. rewrite Heq, lookup_insert_eq. done.
    + destruct Hc as [[e He]|(e & He & Hs)].
      * apply elem_of_cons in He as [Heq|He]; [by subst ie | left; by exists e].
      * right. exists e. unfold put. by rewrite lookup_insert_ne.
Qed.

End restart.

Section restart_facts.

Context (w : World).
Context (Hencode : ∀ texts, encode_raises w texts = false).
Context (Hupsert : ∀ l, upsert_raises w l = false).

Lemma store_batch_first_chunk (paper : Paper) (c : Chunk) (chunks : list Chunk)
    (total : nat) (kb : KB) :
  key_has_source (paper_id paper) (paper_id paper +:+ suffix_text (ChunkSuffix 0))
    (collection (store_batch w (paper_batch paper (c :: chunks)) total kb).2).
Proof using Hencode Hupsert.
  unfold store_batch, encode, upsert. rewrite Hencode, Hupsert. cbn [snd collection].
  apply fold_put_first; [apply entries_owned, paper_batch_owned|].
  left. unfold entries, paper_batch. simpl. eexists. left.
Qed.

Lemma ingest_paper_first_chunk (paper : Paper) (total : nat) (kb : KB) :
  read_paper w (p_pdf_url paper) 500 ≠ [] →
  key_has_source (paper_id paper) (paper_id paper +:+ suffix_text (ChunkSuffix 0))
    (collection (ingest_paper w paper total kb).2).
Proof using Hencode Hupsert.
  intros Hne. unfold ingest_paper.
  destruct (read_paper w (p_pdf_url paper) 500) as [|c chunks]; [done|].
  pose proof (store_batch_first_chunk paper c chunks total kb) as H1.
  destruct (store_batch w (paper_batch paper (c :: chunks)) total kb) as [[t|] kb1];
    [|done].
  simpl in H1. destruct (repo_of paper) as [repo_url|]; [|done].
  cbv zeta. destruct (documents _); [done|].
  apply (store_batch_key w _ _ (paper_id paper)); [apply github_batch_owned | done].
Qed.

Lemma crawl_loop_first_chunk (sid : string) (papers : list Paper) :
  ∀ total kb,
    key_has_source sid (sid +:+ suffix_text (ChunkSuffix 0)) (collection kb)
    ∨ (∃ p, p ∈ papers ∧ paper_id p = sid ∧ read_paper w (p_pdf_url p) 500 ≠ []) →
    key_has_source sid (sid +:+ suffix_text (ChunkSuffix 0))
                   (collection (crawl_loop w papers total kb).2).
Proof using Hencode Hupsert.
  induction papers as [|paper rest IH]; intros total kb H.
  - destruct H as [H|(p & Hp & _)]; [done | by apply elem_of_nil in Hp].
  - simpl.
    pose proof (ingest_paper_count w Hencode paper total kb) as Hr.
    pose proof (ingest_paper_key w sid (ChunkSuffix 0) paper total kb) as Hk.
    pose proof (ingest_paper_first_chunk paper total kb) as Hf.
    destruct (ingest_paper w paper total kb) as [[t|] kb1]; [|done].
    apply IH. destruct H as [H|(p & Hp & Hid & Hne)]; [left; by apply Hk|].
    apply elem_of_cons in Hp as [->|Hp].
    + left. rewrite <- Hid. by apply Hf.
    + right. by exists p.
Qed.

End restart_facts.

(** X13.  A paper stored by a crawl still resolves after a restart.  When
    neither the embedding model nor an upsert raises, a paper found with at
    least one chunk has an entry in the collection afterwards; a new
    [PhysicsKnowledgeBase] over that collection (empty cache) whose [get]
    call does not raise then answers [get_reference] for the paper's id.
    If the collection held no entry of that source before the crawl, the
    answer is built from a result found under that id: its title and PDF
    url, or, when the entry picked is a repository one, its title followed
    by [" - GitHub README"] or [" - Dependencies"] and the repository
    url. *)
Theorem restart_resolves (w : World) (topic : string) (max_papers : Z) (kb : KB)
    (q : ArxivResult) :
  q ∈ yielded (arxiv_results w topic max_papers) →
  read_paper w (ar_pdf_url q) 500 ≠ [] →
  (∀ texts, encode_raises w texts = false) →
  (∀ l, upsert_raises w l = false) →
  get_raises w (ar_short_id q) = false →
  let stored := collection (crawl_physics_knowledge w topic max_papers kb).2 in
  (∃ r, get_reference w (ar_short_id q) (__init__ stored) = Some r)
  ∧ (no_source (ar_short_id q) (collection kb) →
     ∃ q', q' ∈ yielded (arxiv_results w topic max_papers)
           ∧ ar_short_id q' = ar_short_id q
           ∧ (get_reference w (ar_short_id q) (__init__ stored)
              = Some {| ref_title := PStr (ar_title q');
                        ref_url := PStr (ar_pdf_url q') |}
              ∨ ∃ repo_url, repo_of (paper_of w q') = Some repo_url
                  ∧ (get_reference w (ar_short_id q) (__init__ stored)
                     = Some {| ref_title := PStr (ar_title q' +:+ " - GitHub README");
                               ref_url := PStr repo_url |}
                     ∨ get_reference w (ar_short_id q) (__init__ stored)
                       = Some {| ref_title := PStr (ar_title q' +:+ " - Dependencies");
                                 ref_url := PStr repo_url |}))).
Proof.
  intros Hq Hne He Hu Hg stored.
  assert (Hkey : key_has_source (ar_short_id q)
                   (ar_short_id q +:+ suffix_text (ChunkSuffix 0)) stored).
  { subst stored. unfold crawl_physics_knowledge. rewrite search_arxiv_eq. cbn [fst snd].
    destruct (map (paper_of w) _) as [|p ps] eqn:E.
    - apply (f_equal length) in E. rewrite length_map in E.
      destruct (yielded _); [by apply elem_of_nil in Hq | done].
    - rewrite <- E. apply crawl_loop_first_chunk; [done..|]. right.
      exists (paper_of w q). split; [by apply list_elem_of_fmap_2|]. done. }
  destruct Hkey as (e0 & He0 & Hs0).
  destruct (collection_get_found w (ar_short_id q) stored Hg) as (i & e & l & Hie & Hs & Hl);
    [by exists (ar_short_id q +:+ suffix_text (ChunkSuffix 0)), e0|].
  assert (Href : get_reference w (ar_short_id q) (__init__ stored)
                 = Some {| ref_title := default (PStr "Unknown") (metadata e !! "title");
                           ref_url := default (PStr "") (metadata e !! "url") |}).
  { unfold get_reference, __init__. simpl. by rewrite lookup_empty, Hl. }
  split; [by eexists|]. intros Hno.
  subst stored. apply crawl_written in Hie as [Hie|(q' & Hq' & Hm)]; [by destruct (Hno i e)|].
  exists q'. split; [done|].
  destruct Hm as [(page & _ & Hm)|(repo_url & Hr & [Hm|Hm])]; rewrite Hm in Hs, Href.
  - apply paper_meta_source in Hs. split; [done|]. left. exact Href.
  - apply github_meta_source in Hs. split; [done|].
    right. exists repo_url. split; [done|]. left. exact Href.
  - apply github_meta_source in Hs. split; [done|].
    right. exists repo_url. split; [done|]. right. exact Href.
Qed.

Lemma restart_resolves_witness :
  let stored := collection (crawl_physics_knowledge repo_world "photometric stereo" 1
                              empty_kb).2 in
  the_paper ∈ yielded (arxiv_results repo_world "photometric stereo" 1)
  ∧ read_paper repo_world (ar_pdf_url the_paper) 500 ≠ []
  ∧ no_source (ar_short_id the_paper) (collection empty_kb)
  ∧ (∃ r, get_reference repo_world "2401.00001v1" (__init__ stored) = Some r)
  ∧ ∃ q', ar_short_id q' = "2401.00001v1"
          ∧ (get_reference repo_world "2401.00001v1" (__init__ stored)
             = Some {| ref_title := PStr (ar_title q');
                       ref_url := PStr (ar_pdf_url q') |}
             ∨ ∃ repo_url, repo_of (paper_of repo_world q') = Some repo_url
                 ∧ (get_reference repo_world "2401.00001v1" (__init__ stored)
                    = Some {| ref_title := PStr (ar_title q' +:+ " - GitHub README");
                              ref_url := PStr repo_url |}
                    ∨ get_reference repo_world "2401.00001v1" (__init__ stored)
                      = Some {| ref_title := PStr (ar_title q' +:+ " - Dependencies");
                                ref_url := PStr repo_url |})).
Proof.
  intros stored.
  assert (H1 : the_paper ∈ yielded (arxiv_results repo_world "photometric stereo" 1))
    by left.
  assert (H2 : read_paper repo_world (ar_pdf_url the_paper) 500 ≠ [])
    by (vm_compute; discriminate).
  assert (H3 : no_source (ar_short_id the_paper) (collection empty_kb))
    by (intros i e Hie; simpl in Hie; by rewrite lookup_empty in Hie).
  destruct (restart_resolves repo_world "photometric stereo" 1 empty_kb the_paper
              H1 H2 (fun _ => eq_refl) (fun _ => eq_refl) eq_refl) as [Ha Hb].
  split; [exact H1|]. split; [exact H2|]. split; [exact H3|]. split; [exact Ha|].
  destruct (Hb H3) as (q' & _ & Hid & Hr). exists q'. split; [exact Hid | exact Hr].
Defined.

(** ** The count returned and the growth of the store *)

Section exact.

Context (w : World).
Context (Hencode : ∀ texts, encode_raises w texts = false).
Context (Hupsert : ∀ l, upsert_raises w l = false).

Lemma fst_entries (b : Batch) :
  aligned b → (entries b (map (embed w) (documents b))).*1 = ids b.
Proof.
  intros [H1 H2]. unfold entries. apply fst_zip.
  rewrite length_zip_with, length_zip, length_map. lia.
Qed.

Lemma fold_put_fresh (es : list (string * Entry)) :
  NoDup es.*1 →
  ∀ c, (∀ k, k ∈ es.*1 → c !! k = None) →
       size (fold_left put es c) = size c + length es
       ∧ ∀ k, is_Some (fold_left put es c !! k) ↔ is_Some (c !! k) ∨ k ∈ es.*1.
Proof.
  induction es as [|ie es IH]; intros Hnd c Hfresh; simpl.
  - split; [lia|]. intros k. split; [by left | intros [?|?%elem_of_nil]; done].
  - simpl in Hnd. apply NoDup_cons in Hnd as [Hni Hnd].
    destruct (IH Hnd (put c ie)) as [Hs Hk].
    { intros k Hin. unfold put.
      rewrite lookup_insert_ne; [|intros Heq; apply Hni; by rewrite Heq].
      apply Hfresh. by right. }
    split.
    + rewrite Hs. unfold put. rewrite map_size_insert_None; [lia|].
      apply Hfresh. left.
    + intros k. rewrite Hk. unfold put.
      destruct (decide (ie.1 = k)) as [->|Hne].
      * rewrite lookup_insert_eq. split; [intros _; right; left | intros _; left; by eexists].
      * rewrite lookup_insert_ne; [|done]. rewrite elem_of_cons.
        split; [intros [?|?]; [by left | right; by right]
               | intros [?|[?|?]]; [by left | by destruct Hne | by right]].
Qed.

Lemma store_batch_exact (b : Batch) (total : nat) (kb : KB) :
  aligned b → NoDup (ids b) →
  (∀ k, k ∈ ids b → collection kb !! k = None) →
  (store_batch w b total kb).1 = Returned (total + length (documents b))
  ∧ size (collection (store_batch w b total kb).2)
    = size (collection kb) + length (documents b)
  ∧ ∀ k, is_Some (collection (store_batch w b total kb).2 !! k)
         ↔ is_Some (collection kb !! k) ∨ k ∈ ids b.
Proof using Hencode Hupsert.
  intros Ha Hnd Hfresh. unfold store_batch, encode, upsert.
  rewrite Hencode, Hupsert. cbn [fst snd collection].
  pose proof (fst_entries b Ha) as Hf.
  destruct (fold_put_fresh (entries b (map (embed w) (documents b)))) with
    (c := collection kb) as [Hs Hk]; [by rewrite Hf | by rewrite Hf|].
  rewrite Hf in Hk. split; [done|]. split; [|done].
  rewrite Hs. f_equal. rewrite <- (length_fmap fst), Hf. by destruct Ha.
Qed.

Lemma paper_batch_aligned (paper : Paper) (chunks : list Chunk) :
  aligned (paper_batch paper chunks).
Proof. unfold aligned, paper_batch. simpl. by rewrite length_imap, !length_map. Qed.

Lemma github_batch_aligned (pid title repo_url : string) (ctx : GithubContext) :
  aligned (github_batch pid title repo_url ctx).
Proof.
  unfold aligned. rewrite github_batch_windows. unfold requirements_batch.
  destruct (Py.truthy (requirements ctx)); simpl;
    rewrite ?length_app, !length_map, ?length_seq; done.
Qed.

Lemma paper_ids_NoDup (paper : Paper) (chunks : list Chunk) (repo_url : string)
    (ctx : GithubContext) :
  NoDup (paper_ids paper chunks repo_url ctx).
Proof.
  unfold paper_ids.
  destruct (paper_batch_owned paper chunks) as [Ha _].
  destruct (github_batch_owned (paper_id paper) (p_title paper) repo_url ctx) as [Hb _].
  rewrite Forall_forall in Ha. rewrite Forall_forall in Hb.
  apply NoDup_app. split; [|split].
  - rewrite paper_batch_ids. apply NoDup_fmap_2; [apply chunk_id_inj | apply NoDup_seq].
  - intros k H1 H2. rewrite paper_batch_ids in H1. rewrite github_batch_ids in H2.
    apply list_elem_of_fmap in H1 as (j & -> & _).
    apply elem_of_app in H2 as [H2|H2].
    + apply list_elem_of_fmap in H2 as (j' & H2 & _).
      apply (chunk_id_owner _ _ (ChunkSuffix j) (ReadmeSuffix j')) in H2 as [_ ?]. done.
    + destruct (Py.truthy (requirements ctx)); [|by apply elem_of_nil in H2].
      apply list_elem_of_singleton in H2.
      apply (chunk_id_owner _ _ (ChunkSuffix j) RequirementsSuffix) in H2 as [_ ?]. done.
  - rewrite github_batch_ids. apply NoDup_app. split; [|split].
    + apply NoDup_fmap_2; [apply chunk_id_inj | apply NoDup_seq].
    + intros k (j & -> & _)%list_elem_of_fmap H2.
      destruct (Py.truthy (requirements ctx)); [|by apply elem_of_nil in H2].
      apply list_elem_of_singleton in H2.
      apply (chunk_id_owner _ _ (ReadmeSuffix j) RequirementsSuffix) in H2 as [_ ?]. done.
    + destruct (Py.truthy (requirements ctx)); [apply NoDup_singleton | apply NoDup_nil_2].
Qed.

Context (c0 : gmap string Entry).

Lemma fresh_key (P : list string) (pid : string) (s : id_suffix) (c : gmap string Entry) :
  only_keys c0 P c → pid ∉ P → c0 !! (pid +:+ suffix_text s) = None →
  c !! (pid +:+ suffix_text s) = None.
Proof.
  intros Hc Hp H0. destruct (c !! (pid +:+ suffix_text s)) as [e|] eqn:E; [|done].
  destruct (Hc (pid +:+ suffix_text s)) as [[e' He']|(pid' & s' & Hin & Heq)];
    [by eexists | congruence|].
  apply chunk_id_owner in Heq as [-> _]. done.
Qed.

Lemma ingest_paper_exact (P : list string) (paper : Paper) (total : nat) (kb : KB) :
  only_keys c0 P (collection kb) → paper_id paper ∉ P →
  (∀ s, c0 !! (paper_id paper +:+ suffix_text s) = None) →
  ∃ total',
    (ingest_paper w paper total kb).1 = Returned total'
    ∧ size (collection (ingest_paper w paper total kb).2) + total
      = size (collection kb) + total'
    ∧ only_keys c0 (paper_id paper :: P) (collection (ingest_paper w paper total kb).2).
Proof using Hencode Hupsert.
  intros Hkb Hp H0. unfold ingest_paper.
  assert (Hweak : only_keys c0 (paper_id paper :: P) (collection kb)).
  { intros k Hk. destruct (Hkb k Hk) as [?|(pid & s & Hin & ->)]; [by left|].
    right. exists pid, s. split; [by right | done]. }
  destruct (read_paper w (p_pdf_url paper) 500) as [|c chunks].
  { exists total. split; [done|]. split; [cbn [fst snd]; lia | done]. }
  set (pb := paper_batch paper (c :: chunks)).
  destruct (paper_batch_owned paper (c :: chunks)) as [Hform _]. fold pb in Hform.
  rewrite Forall_forall in Hform.
  destruct (repo_of paper) as [repo_url|] eqn:Hr.
  - set (gb := github_batch (paper_id paper) (p_title paper) repo_url
                 (fetch_github_context w repo_url)).
    pose proof (paper_ids_NoDup paper (c :: chunks) repo_url
                  (fetch_github_context w repo_url)) as Hnd.
    unfold paper_ids in Hnd. fold pb gb in Hnd.
    apply NoDup_app in Hnd as (Hnd1 & Hdisj & Hnd2).
    destruct (store_batch_exact pb total kb (paper_batch_aligned _ _) Hnd1)
      as (Ho1 & Hs1 & Hk1).
    { intros k [s ->]%Hform. by apply (fresh_key P). }
    destruct (store_batch w pb total kb) as [o1 kb1]. cbn [fst snd] in Ho1, Hs1, Hk1. subst o1.
    cbv zeta. fold gb.
    destruct (github_batch_owned (paper_id paper) (p_title paper) repo_url
                (fetch_github_context w repo_url)) as [Hgform _]. fold gb in Hgform.
    rewrite Forall_forall in Hgform.
    assert (Hkeys1 : only_keys c0 (paper_id paper :: P) (collection kb1)).
    { intros k Hk. apply Hk1 in Hk as [Hk|Hk]; [by apply Hweak|].
      apply Hform in Hk as [s ->]. right. exists (paper_id paper), s. split; [left | done]. }
    destruct (documents gb) as [|d ds] eqn:Ed.
    + exists (total + length (documents pb)). split; [done|]. split; [cbn [fst snd]; lia | done].
    + destruct (store_batch_exact gb (total + length (documents pb)) kb1
                  (github_batch_aligned _ _ _ _) Hnd2) as (Ho2 & Hs2 & Hk2).
      { intros k Hk. destruct (collection kb1 !! k) as [e|] eqn:E; [|done].
        destruct (proj1 (Hk1 k) ltac:(by eexists)) as [[e' He']|Hin].
        - apply Hgform in Hk as [s ->].
          rewrite (fresh_key P (paper_id paper) s (collection kb)) in He'; done.
        - by destruct (Hdisj k Hin). }
      exists (total + length (documents pb) + length (documents gb)).
      split; [done|]. split; [lia|].
      intros k Hk. apply Hk2 in Hk as [Hk|Hk]; [by apply Hkeys1|].
      apply Hgform in Hk as [s ->]. right. exists (paper_id paper), s. split; [left | done].
  - destruct (store_batch_exact pb total kb (paper_batch_aligned _ _))
      as (Ho1 & Hs1 & Hk1).
    { rewrite <- (app_nil_r (ids pb)).
      change [] with (ids (github_batch (paper_id paper) (p_title paper) "" no_context)).
      apply (paper_ids_NoDup paper (c :: chunks) "" no_context). }
    { intros k [s ->]%Hform. by apply (fresh_key P). }
    destruct (store_batch w pb total kb) as [o1 kb1]. cbn [fst snd] in Ho1, Hs1, Hk1. subst o1.
    exists (total + length (documents pb)). split; [done|]. split; [cbn [fst snd]; lia|].
    intros k Hk. apply Hk1 in Hk as [Hk|Hk]; [by apply Hweak|].
    apply Hform in Hk as [s ->]. right. exists (paper_id paper), s. split; [left | done].
Qed.

Lemma crawl_loop_exact (papers : list Paper) :
  ∀ P total kb,
    NoDup (map paper_id papers) →
    (∀ p, p ∈ papers → paper_id p ∉ P) →
    (∀ p s, p ∈ papers → c0 !! (paper_id p +:+ suffix_text s) = None) →
    only_keys c0 P (collection kb) →
    ∃ total',
      (crawl_loop w papers total kb).1 = Returned total'
      ∧ size (collection (crawl_loop w papers total kb).2) + total
        = size (collection kb) + total'.
Proof using Hencode Hupsert.
  induction papers as [|paper rest IH]; intros P total kb Hnd HP H0 Hkb.
  - exists total. split; [done | cbn [crawl_loop fst snd]; lia].
  - simpl. simpl in Hnd. apply NoDup_cons in Hnd as [Hni Hnd].
    destruct (ingest_paper_exact P paper total kb Hkb) as (t1 & Ho1 & Hs1 & Hk1).
    { apply HP. left. }
    { intros s. apply H0. left. }
    destruct (ingest_paper w paper total kb) as [o1 kb1]. cbn [fst snd] in Ho1, Hs1, Hk1.
    subst o1.
    destruct (IH (paper_id paper :: P) t1 kb1 Hnd) as (t2 & Ho2 & Hs2); [| |done|].
    + intros p Hp [Heq|Hin]%elem_of_cons; [|by destruct (HP p ltac:(by right))].
      apply Hni. rewrite <- Heq. by apply list_elem_of_fmap_2.
    + intros p s Hp. apply H0. by right.
    + exists t2. split; [done | lia].
Qed.

End exact.

(** X14.  When neither the embedding model nor an upsert raises, the
    papers found have pairwise different ids and the collection holds no
    chunk id of theirs yet, the count [crawl_physics_knowledge] returns is
    exactly the number of entries the collection gains: every entry
    counted is a new one. *)
Theorem crawl_count_matches_store (w : World) (topic : string) (max_papers : Z)
    (kb : KB) :
  (∀ texts, encode_raises w texts = false) →
  (∀ l, upsert_raises w l = false) →
  NoDup (map ar_short_id (yielded (arxiv_results w topic max_papers))) →
  (∀ q s, q ∈ yielded (arxiv_results w topic max_papers) →
          collection kb !! (ar_short_id q +:+ suffix_text s) = None) →
  ∃ total,
    (crawl_physics_knowledge w topic max_papers kb).1 = Returned total
    ∧ count (collection (crawl_physics_knowledge w topic max_papers kb).2)
      = count (collection kb) + total.
Proof.
  intros He Hu Hnd Hfresh. unfold crawl_physics_knowledge, count.
  rewrite search_arxiv_eq. cbn [fst snd].
  destruct (map (paper_of w) _) as [|p ps] eqn:E.
  { exists 0. split; [done | simpl; lia]. }
  rewrite <- E.
  destruct (crawl_loop_exact w He Hu (collection kb)
              (map (paper_of w) (yielded (arxiv_results w topic max_papers))) [] 0
              {| collection := collection kb;
                 _paper_metadata :=
                   fold_left (cache_step w) (yielded (arxiv_results w topic max_papers)) ∅
                   ∪ _paper_metadata kb |})
    as (total & Ho & Hs).
  - by rewrite map_map.
  - intros p' _ Hin. by apply elem_of_nil in Hin.
  - intros p' s (q & -> & Hq)%list_elem_of_fmap. by apply Hfresh.
  - intros k Hk. by left.
  - exists total. split; [done|]. cbn [collection] in Hs. lia.
Qed.

Lemma crawl_count_matches_store_witness :
  NoDup (map ar_short_id (yielded (arxiv_results repo_world "photometric stereo" 1)))
  ∧ ∃ total,
      (crawl_physics_knowledge repo_world "photometric stereo" 1 empty_kb).1
      = Returned total
      ∧ count (collection (crawl_physics_knowledge repo_world "photometric stereo" 1
                             empty_kb).2)
        = count (collection empty_kb) + total.
Proof.
  assert (Hnd : NoDup (map ar_short_id
                         (yielded (arxiv_results repo_world "photometric stereo" 1))))
    by (apply NoDup_singleton).
  split; [exact Hnd|].
  apply (crawl_count_matches_store repo_world "photometric stereo" 1 empty_kb
           (fun _ => eq_refl) (fun _ => eq_refl) Hnd).
  intros q s _. apply lookup_empty.
Defined.

(** ** [fetch_github_context] *)

Example fetch_master_only :
  Http.fetch_github_context master_only "https://github.com/a/b"
  = {| readme := "usage notes"; requirements := "numpy torch" |}.
Proof. reflexivity. Qed.

Example replace_example :
  Http.replace "ab" "-" "xabababy" = "x---y"
  ∧ Http.split_on "/" "a//b/" = ["a"; ""; "b"; ""].
Proof. split; reflexivity. Qed.

Section url_text.

Lemma prefix_app (p : string) : ∀ s, String.prefix p s = true → ∃ t, s = p +:+ t.
Proof.
  induction p as [|a p IH]; intros s; simpl.
  - intros _. by exists s.
  - destruct s as [|b s]; [done|]. simpl.
    destruct (ascii_dec a b) as [->|]; [|done].
    intros (t & ->)%IH. by exists t.
Qed.

Lemma prefix_of_app (p t : string) : String.prefix p (p +:+ t) = true.
Proof.
  induction p as [|a p IH]; [by destruct t|].
  rewrite str_app_cons. simpl. by destruct (ascii_dec a a).
Qed.

Lemma slashes_app (a b : string) : slashes (a +:+ b) = slashes a + slashes b.
Proof.
  induction a as [|c a IH]; [done|]. rewrite str_app_cons. simpl. rewrite IH. lia.
Qed.

Lemma no_slash_slashes (s : string) : no_slash s = true → slashes s = 0.
Proof.
  induction s as [|c s IH]; [done|]. simpl. intros [Hc Hs]%andb_prop.
  apply negb_true_iff in Hc. rewrite Hc, IH; done.
Qed.

Lemma replace_go_untouched (old new : string) (s : string) :
  slashes s < slashes old → Http.replace_go old new 0 s = s.
Proof.
  induction s as [|c s IH]; [done|]. intros Hs. cbn [Http.replace_go].
  destruct (String.prefix old (String c s)) eqn:Hp.
  - apply prefix_app in Hp as (t & Ht). rewrite Ht, slashes_app in Hs. lia.
  - rewrite IH; [done|]. simpl in Hs. lia.
Qed.

Lemma replace_go_skip (old new p : string) :
  ∀ s, Http.replace_go old new (String.length p) (p +:+ s) = Http.replace_go old new 0 s.
Proof.
  induction p as [|a p IH]; intros s; [by rewrite str_app_nil_l|].
  rewrite str_app_cons. simpl. apply IH.
Qed.

Lemma replace_at_front (c : ascii) (old' new rest : string) :
  Http.replace (String c old') new (String c old' +:+ rest)
  = new +:+ Http.replace (String c old') new rest.
Proof.
  unfold Http.replace. rewrite str_app_cons. cbn [Http.replace_go].
  rewrite <- str_app_cons, prefix_of_app.
  replace (String.length (String c old') - 1) with (String.length old')
    by (simpl; lia).
  by rewrite replace_go_skip.
Qed.

Lemma split_on_from_no_slash (u : string) :
  ∀ cur rest, no_slash u = true →
    Http.split_on_from "/" cur (u +:+ rest) = Http.split_on_from "/" (cur +:+ u) rest.
Proof.
  induction u as [|c u IH]; intros cur rest Hu.
  - by rewrite str_app_nil_l, str_app_nil_r.
  - simpl in Hu. apply andb_prop in Hu as [Hc Hu]. apply negb_true_iff in Hc.
    rewrite str_app_cons. cbn [Http.split_on_from]. rewrite Hc, IH; [|done].
    by rewrite str_app_assoc.
Qed.

Lemma split_on_one (user : string) :
  no_slash user = true → Http.split_on "/" user = [user].
Proof.
  intros Hu. unfold Http.split_on.
  rewrite <- (str_app_nil_r user) at 1. rewrite split_on_from_no_slash; [|done].
  by rewrite str_app_nil_l.
Qed.

Lemma split_on_two (user repo : string) :
  no_slash user = true → no_slash repo = true →
  Http.split_on "/" (user +:+ "/" +:+ repo) = [user; repo].
Proof.
  intros Hu Hr. unfold Http.split_on.
  rewrite split_on_from_no_slash; [|done]. rewrite str_app_nil_l, str_app_cons.
  cbn [Http.split_on_from]. change (Ascii.eqb "/" "/") with true. cbv iota.
  rewrite str_app_nil_l. f_equal. by apply split_on_one.
Qed.

Lemma github_parts (rest : string) :
  slashes rest < 3 →
  Http.replace "https://github.com/" "" ("https://github.com/" +:+ rest) = rest.
Proof.
  intros Hs. rewrite replace_at_front, str_app_nil_l.
  by apply replace_go_untouched.
Qed.

Lemma fetch_well_formed (http_get : string → Http.outcome) (user repo : string) :
  no_slash user = true → no_slash repo = true →
  Http.fetch_github_context http_get ("https://github.com/" +:+ user +:+ "/" +:+ repo)
  = Http.fetch_branches http_get
      ("https://raw.githubusercontent.com/" +:+ user +:+ "/" +:+ repo) ["main"; "master"].
Proof.
  intros Hu Hr. unfold Http.fetch_github_context.
  rewrite github_parts.
  - rewrite split_on_two; [|done..]. by rewrite str_app_cons.
  - rewrite !slashes_app, (no_slash_slashes user), (no_slash_slashes repo); [|done..].
    simpl. lia.
Qed.

End url_text.

Lemma fetch_requirements_cases (http_get : string → Http.outcome)
    (raw_base branch : string) :
  (∀ R, http_get (raw_base +:+ "/" +:+ branch +:+ "/requirements.txt")
        = Http.Response 200 R →
        Http.fetch_requirements http_get raw_base branch = R)
  ∧ ((∀ R, http_get (raw_base +:+ "/" +:+ branch +:+ "/requirements.txt")
           ≠ Http.Response 200 R) →
     Http.fetch_requirements http_get raw_base branch = "").
Proof.
  unfold Http.fetch_requirements. split.
  - by intros R ->.
  - intros Hno. destruct (http_get _) as [status text| |]; [|done..].
    destruct (Z.eqb_spec status 200) as [->|]; [by destruct (Hno text) | done].
Qed.

(** X15.  For a repository url ["https://github.com/{user}/{repo}"],
    when the request for the README on branch [main] is answered with
    status 200, the context holds that text, together with the text of
    [requirements.txt] on [main] if that request is answered with status
    200 too and the empty string otherwise; branch [master] plays no
    part. *)
Theorem fetch_github_context_main_first (http_get : string → Http.outcome)
    (user repo readme_text : string) :
  no_slash user = true → no_slash repo = true →
  let raw_base := "https://raw.githubusercontent.com/" +:+ user +:+ "/" +:+ repo in
  let ctx := Http.fetch_github_context http_get
               ("https://github.com/" +:+ user +:+ "/" +:+ repo) in
  http_get (raw_base +:+ "/main/README.md") = Http.Response 200 readme_text →
  readme ctx = readme_text
  ∧ (∀ R, http_get (raw_base +:+ "/main/requirements.txt") = Http.Response 200 R →
          requirements ctx = R)
  ∧ ((∀ R, http_get (raw_base +:+ "/main/requirements.txt") ≠ Http.Response 200 R) →
     requirements ctx = "").
Proof.
  intros Hu Hr raw_base ctx Hget. subst ctx. rewrite fetch_well_formed; [|done..].
  fold raw_base. cbn [Http.fetch_branches].
  change (raw_base +:+ "/" +:+ "main" +:+ "/README.md")
    with (raw_base +:+ "/main/README.md").
  rewrite Hget. simpl. split; [done|].
  apply (fetch_requirements_cases http_get raw_base "main").
Qed.

Lemma fetch_github_context_main_first_witness :
  let http_get := fun url : string =>
    if String.eqb url "https://raw.githubusercontent.com/a/b/main/README.md"
    then Http.Response 200 "read me" else Http.RequestException in
  no_slash "a" = true ∧ no_slash "b" = true
  ∧ readme (Http.fetch_github_context http_get "https://github.com/a/b") = "read me"
  ∧ requirements (Http.fetch_github_context http_get "https://github.com/a/b") = "".
Proof.
  intros http_get.
  destruct (fetch_github_context_main_first http_get "a" "b" "read me"
              eq_refl eq_refl eq_refl) as (H1 & _ & H3).
  split; [reflexivity|]. split; [reflexivity|].
  split; [exact H1|]. apply H3. intros R. vm_compute. discriminate.
Defined.

(** X16.  For a repository url ["https://github.com/{user}/{repo}"],
    when the request for the README on [main] is answered with another
    status than 200 or raises a [RequestException], branch [master]
    decides in the same way: a README answered with status 200 there is
    returned with the manifest of [master], and otherwise the context is
    empty. *)
Theorem fetch_github_context_falls_back (http_get : string → Http.outcome)
    (user repo : string) :
  no_slash user = true → no_slash repo = true →
  let raw_base := "https://raw.githubusercontent.com/" +:+ user +:+ "/" +:+ repo in
  let ctx := Http.fetch_github_context http_get
               ("https://github.com/" +:+ user +:+ "/" +:+ repo) in
  (http_get (raw_base +:+ "/main/README.md") = Http.RequestException
   ∨ ∃ status text, http_get (raw_base +:+ "/main/README.md") = Http.Response status text
                    ∧ status ≠ 200%Z) →
  (∀ T, http_get (raw_base +:+ "/master/README.md") = Http.Response 200 T →
        readme ctx = T
        ∧ (∀ R, http_get (raw_base +:+ "/master/requirements.txt") = Http.Response 200 R →
                requirements ctx = R)
        ∧ ((∀ R, http_get (raw_base +:+ "/master/requirements.txt")
                 ≠ Http.Response 200 R) →
           requirements ctx = ""))
  ∧ ((∀ T, http_get (raw_base +:+ "/master/README.md") ≠ Http.Response 200 T) →
     ctx = {| readme := ""; requirements := "" |}).
Proof.
  intros Hu Hr raw_base ctx Hmain. subst ctx. rewrite fetch_well_formed; [|done..].
  fold raw_base.
  assert (Hstep : Http.fetch_branches http_get raw_base ["main"; "master"]
                  = Http.fetch_branches http_get raw_base ["master"]).
  { cbn [Http.fetch_branches].
    change (raw_base +:+ "/" +:+ "main" +:+ "/README.md")
      with (raw_base +:+ "/main/README.md").
    destruct Hmain as [->|(status & text & -> & Hne)]; [done|].
    by destruct (Z.eqb_spec status 200). }
  rewrite Hstep. cbn [Http.fetch_branches].
  change (raw_base +:+ "/" +:+ "master" +:+ "/README.md")
    with (raw_base +:+ "/master/README.md").
  split.
  - intros T ->. simpl. split; [done|].
    apply (fetch_requirements_cases http_get raw_base "master").
  - intros Hno. destruct (http_get (raw_base +:+ "/master/README.md"))
      as [status text| |]; [|done..].
    destruct (Z.eqb_spec status 200) as [->|]; [by destruct (Hno text) | done].
Qed.

Lemma fetch_github_context_falls_back_witness :
  no_slash "a" = true ∧ no_slash "b" = true
  ∧ master_only "https://raw.githubusercontent.com/a/b/main/README.md"
    = Http.Response 404 "Not Found"
  ∧ readme (Http.fetch_github_context master_only "https://github.com/a/b")
    = "usage notes"
  ∧ requirements (Http.fetch_github_context master_only "https://github.com/a/b")
    = "numpy torch".
Proof.
  destruct (fetch_github_context_falls_back master_only "a" "b" eq_refl eq_refl)
    as [H1 _].
  { right. exists 404%Z, "Not Found". split; [reflexivity | discriminate]. }
  destruct (H1 "usage notes" eq_refl) as (Ha & Hb & _).
  split; [reflexivity|]. split; [reflexivity|]. split; [reflexivity|].
  split; [exact Ha | exact (Hb "numpy torch" eq_refl)].
Defined.

Lemma fetch_branches_requirements (http_get : string → Http.outcome)
    (raw_base : string) (branches : list string) :
  requirements (Http.fetch_branches http_get raw_base branches) ≠ "" →
  ∃ branch, branch ∈ branches
    ∧ http_get (raw_base +:+ "/" +:+ branch +:+ "/README.md")
      = Http.Response 200 (readme (Http.fetch_branches http_get raw_base branches))
    ∧ http_get (raw_base +:+ "/" +:+ branch +:+ "/requirements.txt")
      = Http.Response 200
          (requirements (Http.fetch_branches http_get raw_base branches)).
Proof.
  induction branches as [|branch rest IH]; [done|]. cbn [Http.fetch_branches].
  assert (Hrest : requirements (Http.fetch_branches http_get raw_base rest) ≠ "" →
                  ∃ b, b ∈ branch :: rest
                    ∧ http_get (raw_base +:+ "/" +:+ b +:+ "/README.md")
                      = Http.Response 200
                          (readme (Http.fetch_branches http_get raw_base rest))
                    ∧ http_get (raw_base +:+ "/" +:+ b +:+ "/requirements.txt")
                      = Http.Response 200
                          (requirements (Http.fetch_branches http_get raw_base rest))).
  { intros (b & Hb & H)%IH. exists b. split; [by right | done]. }
  destruct (http_get (raw_base +:+ "/" +:+ branch +:+ "/README.md"))
    as [status text| |] eqn:E; [|done..].
  destruct (Z.eqb_spec status 200) as [->|]; [|done].
  simpl. unfold Http.fetch_requirements.
  destruct (http_get (raw_base +:+ "/" +:+ branch +:+ "/requirements.txt"))
    as [status' text'| |] eqn:E'; [|done..].
  destruct (Z.eqb_spec status' 200) as [->|]; [|done].
  intros _. exists branch. split; [left | done].
Qed.

(** X17.  Whatever the repository url and the answers, a manifest is
    returned only together with the README of the same branch: when the
    [requirements] of the context is not empty, then for [main] or for
    [master] both the README request and the manifest request were
    answered with status 200, with exactly the two texts returned. *)
Theorem fetch_github_context_manifest_with_readme (http_get : string → Http.outcome)
    (repo_url : string) :
  let ctx := Http.fetch_github_context http_get repo_url in
  requirements ctx ≠ "" →
  ∃ raw_base branch,
    (branch = "main" ∨ branch = "master")
    ∧ http_get (raw_base +:+ "/" +:+ branch +:+ "/README.md")
      = Http.Response 200 (readme ctx)
    ∧ http_get (raw_base +:+ "/" +:+ branch +:+ "/requirements.txt")
      = Http.Response 200 (requirements ctx).
Proof.
  intros ctx. subst ctx. unfold Http.fetch_github_context.
  destruct (Py.truthy repo_url); [|done].
  destruct (Http.split_on "/" _) as [|user [|repo parts]]; [done..|].
  cbv zeta. intros (branch & Hb & H)%fetch_branches_requirements.
  eexists _, branch. split; [|exact H].
  apply elem_of_cons in Hb as [->|Hb]; [by left|].
  apply list_elem_of_singleton in Hb. by right.
Qed.

Lemma fetch_github_context_manifest_with_readme_witness :
  requirements (Http.fetch_github_context master_only "https://github.com/a/b") ≠ ""
  ∧ ∃ raw_base branch,
      (branch = "main" ∨ branch = "master")
      ∧ master_only (raw_base +:+ "/" +:+ branch +:+ "/README.md")
        = Http.Response 200
            (readme (Http.fetch_github_context master_only "https://github.com/a/b"))
      ∧ master_only (raw_base +:+ "/" +:+ branch +:+ "/requirements.txt")
        = Http.Response 200
            (requirements (Http.fetch_github_context master_only
                             "https://github.com/a/b")).
Proof.
  assert (H : requirements (Http.fetch_github_context master_only
                              "https://github.com/a/b") ≠ "")
    by (vm_compute; discriminate).
  split; [exact H|].
  exact (fetch_github_context_manifest_with_readme master_only
           "https://github.com/a/b" H).
Defined.

(** X18.  No request is made, and the context is empty, for an empty
    repository url and for a url that names a user but no repository
    (["https://github.com/{user}"]); an exception other than
    [RequestException] on the README of [main] also ends the method with
    an empty context, [master] not being tried. *)
Theorem fetch_github_context_empty_cases (http_get : string → Http.outcome)
    (user repo : string) :
  Http.fetch_github_context http_get "" = {| readme := ""; requirements := "" |}
  ∧ (no_slash user = true →
     Http.fetch_github_context http_get ("https://github.com/" +:+ user)
     = {| readme := ""; requirements := "" |})
  ∧ (no_slash user = true → no_slash repo = true →
     http_get ("https://raw.githubusercontent.com/" +:+ user +:+ "/" +:+ repo
               +:+ "/main/README.md") = Http.OtherException →
     Http.fetch_github_context http_get
       ("https://github.com/" +:+ user +:+ "/" +:+ repo)
     = {| readme := ""; requirements := "" |}).
Proof.
  split; [done|]. split.
  - intros Hu. unfold Http.fetch_github_context.
    rewrite github_parts; [|rewrite no_slash_slashes; [lia | done]].
    rewrite split_on_one; [|done]. by destruct (Py.truthy _).
  - intros Hu Hr Hget. rewrite fetch_well_formed; [|done..].
    cbn [Http.fetch_branches].
    rewrite <- !str_app_assoc in Hget. rewrite <- !str_app_assoc.
    change (((("https://raw.githubusercontent.com/" +:+ user) +:+ "/") +:+ repo)
            +:+ "/main/README.md")
      with (((("https://raw.githubusercontent.com/" +:+ user) +:+ "/") +:+ repo)
            +:+ "/" +:+ "main" +:+ "/README.md") in Hget.
    rewrite <- !str_app_assoc in Hget. by rewrite Hget.
Qed.

Lemma fetch_github_context_empty_cases_witness :
  no_slash "a" = true
  ∧ Http.fetch_github_context master_only "https://github.com/a" = no_context
  ∧ Http.fetch_github_context (fun _ => Http.OtherException) "https://github.com/a/b"
    = no_context.
Proof.
  split; [reflexivity|]. split.
  - apply (proj1 (proj2 (fetch_github_context_empty_cases master_only "a" "b")) eq_refl).
  - apply (proj2 (proj2 (fetch_github_context_empty_cases
                           (fun _ => Http.OtherException) "a" "b")) eq_refl eq_refl).
    reflexivity.
Defined.

(** ** Queries over what a crawl stored *)

Lemma elem_of_query (w : World) (question : string) (n_results : Z) (kb : KB)
    (r : QueryResult) :
  r ∈ query_physics_db w question n_results kb →
  ∃ i e d, collection kb !! i = Some e ∧ r = format_hit (document e, metadata e, d).
Proof.
  unfold query_physics_db, encode.
  destruct (encode_raises w [question]); [by intros ?%elem_of_nil|]. simpl.
  unfold collection_query.
  destruct (query_raises w [embed w question] n_results); [by intros ?%elem_of_nil|].
  simpl. rewrite zip3_map, map_map.
  intros ([e d] & -> & Hh)%list_elem_of_fmap.
  unfold hits in Hh. apply list_elem_of_omap in Hh as ([i d'] & _ & Hi).
  destruct (collection kb !! i) as [e'|] eqn:E; [|done].
  injection Hi as -> ->. by exists i, e, d.
Qed.

(** X19.  Over a fresh database filled by one crawl, every result of
    [query_physics_db] cites a paper that crawl found: its [source_id] is
    the paper's id, and either it is a chunk of the PDF, with the paper's
    title, the PDF url and a page number from 1 on, or it is a repository
    text, with page 0, the repository url and the title followed by
    [" - GitHub README"] or [" - Dependencies"].  No default value is
    ever filled in. *)
Theorem query_after_crawl_cites_found_papers (w : World) (topic : string)
    (max_papers : Z) (question : string) (n_results : Z) (r : QueryResult) :
  r ∈ query_physics_db w question n_results
        (crawl_physics_knowledge w topic max_papers (__init__ ∅)).2 →
  ∃ q, q ∈ yielded (arxiv_results w topic max_papers)
    ∧ r_source_id r = PStr (ar_short_id q)
    ∧ ((r_title r = PStr (ar_title q) ∧ r_url r = PStr (ar_pdf_url q)
        ∧ ∃ page, (1 ≤ page)%Z ∧ r_page r = PInt page)
       ∨ (∃ repo_url, repo_of (paper_of w q) = Some repo_url
            ∧ r_url r = PStr repo_url ∧ r_page r = PInt 0
            ∧ (r_title r = PStr (ar_title q +:+ " - GitHub README")
               ∨ r_title r = PStr (ar_title q +:+ " - Dependencies")))).
Proof.
  intros (i & e & d & Hie & ->)%elem_of_query.
  apply crawl_written in Hie as [Hie|(q & Hq & Hm)];
    [simpl in Hie; by rewrite lookup_empty in Hie|].
  exists q. split; [done|].
  destruct Hm as [(page & Hp & Hm)|(repo_url & Hr & [Hm|Hm])];
    unfold format_hit; rewrite Hm.
  - split; [done|]. left. split; [done|]. split; [done|]. by exists page.
  - split; [done|]. right. exists repo_url. do 3 (split; [done|]). by left.
  - split; [done|]. right. exists repo_url. do 3 (split; [done|]). by right.
Qed.

Lemma query_after_crawl_cites_found_papers_witness :
  ∃ r, r ∈ query_physics_db repo_world "normals" 3
             (crawl_physics_knowledge repo_world "photometric stereo" 1 (__init__ ∅)).2
       ∧ ∃ q, q ∈ yielded (arxiv_results repo_world "photometric stereo" 1)
              ∧ r_source_id r = PStr (ar_short_id q).
Proof.
  destruct (query_physics_db repo_world "normals" 3
              (crawl_physics_knowledge repo_world "photometric stereo" 1 (__init__ ∅)).2)
    as [|r rs] eqn:E; [by vm_compute in E|].
  exists r. split; [left|].
  destruct (query_after_crawl_cites_found_papers repo_world "photometric stereo" 1
              "normals" 3 r) as (q & Hq & Hs & _); [rewrite E; left|].
  exists q. split; [exact Hq | exact Hs].
Defined.

(** ** A crawl without GitHub *)

Lemma fetch_branches_unreachable (http_get : string → Http.outcome)
    (raw_base : string) (branches : list string) :
  (∀ url T, http_get url ≠ Http.Response 200 T) →
  Http.fetch_branches http_get raw_base branches = {| readme := ""; requirements := "" |}.
Proof.
  intros Hno. induction branches as [|branch rest IH]; [done|].
  cbn [Http.fetch_branches].
  destruct (http_get _) as [status text| |] eqn:E; [|done..].
  destruct (Z.eqb_spec status 200) as [->|]; [by apply Hno in E | done].
Qed.

Lemma fetch_unreachable (http_get : string → Http.outcome) (repo_url : string) :
  (∀ url T, http_get url ≠ Http.Response 200 T) →
  Http.fetch_github_context http_get repo_url = {| readme := ""; requirements := "" |}.
Proof.
  intros Hno. unfold Http.fetch_github_context.
  destruct (Py.truthy repo_url); [|done].
  destruct (Http.split_on "/" _) as [|user [|repo parts]]; [done..|].
  by apply fetch_branches_unreachable.
Qed.

(** X20.  When no GitHub request is answered with status 200 (requests
    that raise included), every repository context is empty, and a crawl
    in which neither the embedding model nor an upsert raises stores and
    counts exactly the chunks of the PDFs: the papers' repositories add
    nothing and break nothing. *)
Theorem crawl_without_github (w : World) (http_get : string → Http.outcome)
    (topic : string) (max_papers : Z) (kb : KB) :
  github_fetch w = Http.fetch_github_context http_get →
  (∀ url T, http_get url ≠ Http.Response 200 T) →
  (∀ texts, encode_raises w texts = false) →
  (∀ l, upsert_raises w l = false) →
  (∀ repo_url, fetch_github_context w repo_url = {| readme := ""; requirements := "" |})
  ∧ (crawl_physics_knowledge w topic max_papers kb).1
    = Returned (sum_list (map (fun q => length (read_paper w (ar_pdf_url q) 500))
                              (yielded (arxiv_results w topic max_papers)))).
Proof.
  intros Hg Hno He Hu.
  assert (Hctx : ∀ repo_url, fetch_github_context w repo_url
                             = {| readme := ""; requirements := "" |}).
  { intros repo_url. unfold fetch_github_context. rewrite Hg.
    destruct (Py.truthy repo_url); [by apply fetch_unreachable | done]. }
  split; [exact Hctx|].
  unfold crawl_physics_knowledge. rewrite search_arxiv_eq. cbn [fst snd].
  assert (Hsum : sum_list (map (paper_stored w)
                             (map (paper_of w) (yielded (arxiv_results w topic max_papers))))
                 = sum_list (map (fun q => length (read_paper w (ar_pdf_url q) 500))
                                 (yielded (arxiv_results w topic max_papers)))).
  { rewrite map_map. f_equal. apply map_ext. intros q.
    unfold paper_stored, batch_stored. simpl p_pdf_url.
    destruct (read_paper w (ar_pdf_url q) 500) as [|c chunks]; [done|].
    rewrite Hu. destruct (repo_of (paper_of w q)) as [repo_url|]; [|lia].
    cbv zeta. rewrite Hu, Hctx. simpl. lia. }
  rewrite <- Hsum.
  destruct (map (paper_of w) _) as [|p ps] eqn:E; [done|].
  by rewrite crawl_loop_count.
Qed.

Lemma crawl_without_github_witness :
  let w := http_world (fun _ => Http.RequestException) in
  (∀ url T, (fun _ : string => Http.RequestException) url ≠ Http.Response 200 T)
  ∧ (crawl_physics_knowledge w "photometric stereo" 1 empty_kb).1 = Returned 2.
Proof.
  intros w.
  assert (Hno : ∀ (url : string) T, Http.RequestException ≠ Http.Response 200 T)
    by discriminate.
  split; [exact Hno|].
  destruct (crawl_without_github w (fun _ => Http.RequestException)
              "photometric stereo" 1 empty_kb eq_refl Hno
              (fun _ => eq_refl) (fun _ => eq_refl)) as [_ H].
  rewrite H. vm_compute. reflexivity.
Defined.
